(** * InstanceWrapper (example_code/ec2/instance.py)

    A shallow embedding of the [InstanceWrapper] class: a wrapper that holds an
    EC2 client and, optionally, the record of one instance, and turns each
    method call into client requests.

    The client is not part of the repository. It is a parameter of the
    development: a transition function from the provider's state and a request
    to the provider's next state and either a response or a raised exception.
    Every theorem quantifies over every such client; concrete clients (test
    doubles) are used at the examples. *)

From stdpp Require Import base strings list gmap pretty.
From Stdlib Require Import ZArith Ascii String.

#[local] Set Warnings "-register-all".
#[local] Open Scope Z_scope.

(** ** Python values

    Responses of the client are documents made of strings, integers, booleans,
    lists and string-keyed dicts; no response holds [None]. Python's [None]
    appears only as the unset [instance] attribute and as the value of a
    method that returns nothing, both as an [option]. *)

Inductive pyval : Type :=
| PStr (s : string)
| PInt (n : Z)
| PBool (b : bool)
| PList (l : list pyval)
| PDict (d : gmap string pyval).

(** Exceptions. [ClientError] is botocore's; the handlers of this file read
    [err.response["Error"]["Code"]] and [err.response["Error"]["Message"]], the
    two strings it carries here. [WaiterError] is what a waiter raises when it
    gives up; it is not a [ClientError]. The other three come from Python's
    subscription. *)

Inductive exn : Type :=
| ClientError (code message : string)
| WaiterError (reason : string)
| KeyError (key : pyval)
| IndexError
| TypeError.

(** The outcome of an expression or of a call: [inl e] when [e] was raised. *)
Definition result (A : Type) : Type := (exn + A)%type.

(** [v[k]] for a string key [k]. *)
Definition getitem (v : pyval) (k : string) : result pyval :=
  match v with
  | PDict d =>
      match d !! k with
      | Some x => inr x
      | None => inl (KeyError (PStr k))
      end
  | PStr _ | PList _ | PInt _ | PBool _ => inl TypeError
  end.

(** [v[i]] for a non-negative integer literal [i]. *)
Definition getindex (v : pyval) (i : nat) : result pyval :=
  match v with
  | PList l =>
      match l !! i with
      | Some x => inr x
      | None => inl IndexError
      end
  | PStr s =>
      match String.get i s with
      | Some c => inr (PStr (String c EmptyString))
      | None => inl IndexError
      end
  | PDict _ => inl (KeyError (PInt (Z.of_nat i)))
  | PInt _ | PBool _ => inl TypeError
  end.

(** The elements a [for] clause iterates over. A dict gives its keys, here in
    the order of the map; the one caller subscripts each element with a
    string, which a key does not allow, so the order never shows. *)
Definition py_iter (v : pyval) : result (list pyval) :=
  match v with
  | PList l => inr l
  | PDict d => inr (PStr <$> (map_to_list d).*1)
  | PStr s => inr ((fun c => PStr (String c EmptyString)) <$> list_ascii_of_string s)
  | PInt _ | PBool _ => inl TypeError
  end.

(** [s * n] on a string: no copy at all when [n] is negative. This is the
    product for a count the platform can index with; beyond that range Python
    raises [OverflowError], which is left out here. *)
Fixpoint str_repeat (s : string) (n : nat) : string :=
  match n with
  | O => EmptyString
  | S n' => s +:+ str_repeat s n'
  end.

Definition str_mul (s : string) (n : Z) : string := str_repeat s (Z.to_nat n).

Definition tab : string := String (ascii_of_nat 9) EmptyString.

(** [fmt % args] where every conversion of [fmt] is [%s]. *)
Fixpoint percent_format (fmt : string) (args : list string) : string :=
  match fmt with
  | EmptyString => EmptyString
  | String c rest =>
      match c, rest with
      | "%"%char, String "s"%char rest' =>
          match args with
          | a :: args' => a +:+ percent_format rest' args'
          | [] => String c (String "s"%char (percent_format rest' []))
          end
      | _, _ => String c (percent_format rest args)
      end
  end.

(** ** Requests *)

Inductive operation : Type :=
| run_instances
| describe_instances
| terminate_instances
| start_instances
| stop_instances
| describe_images
| describe_instance_types
| waiter_wait (name : string).

(** A client call: the operation and its keyword arguments. *)
Record request : Type := Request {
  op : operation;
  kwargs : gmap string pyval;
}.

(** ** Log records *)

Inductive level : Type := INFO | ERROR.

(** [logger] is the module's logger, [logging] the root one. *)
Inductive emitter : Type := logger | logging.

Record log_record : Type := LogRecord {
  via : emitter;
  severity : level;
  message : string;
}.

(** ** The wrapper and its surroundings *)

Section Model.
Context {P : Type}.

(** The state a method runs in: the wrapper's [instance] attribute, the
    provider's own state, and what the method has sent, printed and logged
    so far (oldest first). *)
Record world : Type := World {
  instance : option pyval;
  provider : P;
  requests : list request;
  stdout : list string;
  records : list log_record;
}.

(** The client handle [self.ec2_client]. *)
Variable ec2_client : P -> request -> P * result pyval.

(** [str] of a list or a dict; the methods never look into it. *)
Variable py_repr : pyval -> string.

Definition py_str (v : pyval) : string :=
  match v with
  | PStr s => s
  | PInt n => pretty n
  | PBool true => "True"
  | PBool false => "False"
  | PList _ | PDict _ => py_repr v
  end.

(** Statements: a state transformer that ends in a value or in a raised
    exception. Effects made before a raise stay. *)
Definition M (A : Type) : Type := world -> world * result A.

Definition ret {A} (a : A) : M A := fun w => (w, inr a).

Definition raise {A} (e : exn) : M A := fun w => (w, inl e).

Definition bind {A B} (m : M A) (k : A -> M B) : M B := fun w =>
  match m w with
  | (w', inr a) => k a w'
  | (w', inl e) => (w', inl e)
  end.

Definition lift {A} (r : result A) : M A := fun w => (w, r).

(** [try: body except ClientError as err: handler]. *)
Definition try_except_ClientError {A} (body : M A)
    (handler : string -> string -> M A) : M A := fun w =>
  match body w with
  | (w', inl (ClientError code msg)) => handler code msg w'
  | r => r
  end.

Definition get_instance : M (option pyval) := fun w => (w, inr (instance w)).

Definition set_instance (i : option pyval) : M unit := fun w =>
  (World i (provider w) (requests w) (stdout w) (records w), inr tt).

(** [self.instance[k]]. *)
Definition self_instance_getitem (k : string) : M pyval := fun w =>
  match instance w with
  | Some v => (w, getitem v k)
  | None => (w, inl TypeError)
  end.

(** A request to the client: it is recorded, the provider moves on, and the
    response comes back or the provider's exception is raised. *)
Definition call (o : operation) (kw : gmap string pyval) : M pyval := fun w =>
  let (p', r) := ec2_client (provider w) (Request o kw) in
  (World (instance w) p' (requests w ++ [Request o kw]) (stdout w) (records w), r).

Definition print (line : string) : M unit := fun w =>
  (World (instance w) (provider w) (requests w) (stdout w ++ [line]) (records w), inr tt).

(** The text of a record: the format is applied only when there are
    arguments. *)
Definition get_message (fmt : string) (args : list string) : string :=
  match args with
  | [] => fmt
  | _ :: _ => percent_format fmt args
  end.

Definition log (e : emitter) (l : level) (fmt : string) (args : list string)
    : M unit := fun w =>
  (World (instance w) (provider w) (requests w) (stdout w)
     (records w ++ [LogRecord e l (get_message fmt args)]), inr tt).

(** [[f(x) for x in xs]], stopping at the first raise. *)
Fixpoint comprehension {A B} (f : A -> result B) (xs : list A) : result (list B) :=
  match xs with
  | [] => inr []
  | x :: xs' =>
      match f x with
      | inl e => inl e
      | inr y =>
          match comprehension f xs' with
          | inl e => inl e
          | inr ys => inr (y :: ys)
          end
      end
  end.

End Model.

Arguments world : clear implicits.
Arguments M : clear implicits.

Notation "'let*' x := c 'in' k" := (bind c (fun x => k))
  (at level 10, x name, c at level 100, k at level 200).

(** [response["Reservations"][0]["Instances"][0]]. *)
Definition described_instance (response : pyval) : result pyval :=
  match getitem response "Reservations" with
  | inl e => inl e
  | inr reservations =>
      match getindex reservations 0 with
      | inl e => inl e
      | inr reservation =>
          match getitem reservation "Instances" with
          | inl e => inl e
          | inr instances => getindex instances 0
          end
      end
  end.

(** ** The methods of [InstanceWrapper] *)

Section InstanceWrapper.
Context {P : Type}.
Variable ec2_client : P -> request -> P * result pyval.
Variable py_repr : pyval -> string.

#[local] Abbreviation call := (call ec2_client).
#[local] Abbreviation py_str := (py_str py_repr).

Definition create (image instance_type key_pair : pyval)
    (security_groups : option pyval) : M P pyval :=
  try_except_ClientError
    (let instance_params : gmap string pyval :=
       <["KeyName" := key_pair]>
         (<["InstanceType" := instance_type]> {["ImageId" := image]}) in
     let instance_params :=
       match security_groups with
       | Some sg => <["SecurityGroupIds" := sg]> instance_params
       | None => instance_params
       end in
     let* response :=
       call run_instances
         (<["MaxCount" := PInt 1]> (<["MinCount" := PInt 1]> instance_params)) in
     let* instances := lift (getitem response "Instances") in
     let* first := lift (getindex instances 0) in
     let* _ := set_instance (Some first) in
     let* instance_id := self_instance_getitem "InstanceId" in
     let* _ := call (waiter_wait "instance_running")
                 {["InstanceIds" := PList [instance_id]]} in
     self_instance_getitem "InstanceId")
    (fun code msg =>
       let* _ := log logging ERROR
         ("Couldn't create instance with image %s, instance type %s, and key %s. "
          +:+ "Here's why: %s: %s")
         [py_str image; py_str instance_type; py_str key_pair; code; msg] in
       raise (ClientError code msg)).

Definition display (indent : Z) : M P unit :=
  let* tracked := get_instance in
  match tracked with
  | None => log logger INFO "No instance to display." []
  | Some _ =>
      try_except_ClientError
        (let* instance_id := self_instance_getitem "InstanceId" in
         let* response :=
           call describe_instances {["InstanceIds" := PList [instance_id]]} in
         let* instance := lift (described_instance response) in
         let ind := str_mul tab indent in
         let* v := lift (getitem instance "InstanceId") in
         let* _ := print (ind +:+ "ID: " +:+ py_str v) in
         let* v := lift (getitem instance "ImageId") in
         let* _ := print (ind +:+ "Image ID: " +:+ py_str v) in
         let* v := lift (getitem instance "InstanceType") in
         let* _ := print (ind +:+ "Instance type: " +:+ py_str v) in
         let* v := lift (getitem instance "KeyName") in
         let* _ := print (ind +:+ "Key name: " +:+ py_str v) in
         let* v := lift (getitem instance "VpcId") in
         let* _ := print (ind +:+ "VPC ID: " +:+ py_str v) in
         let* v := lift (getitem instance "PublicIpAddress") in
         let* _ := print (ind +:+ "Public IP: " +:+ py_str v) in
         let* state := lift (getitem instance "State") in
         let* v := lift (getitem state "Name") in
         print (ind +:+ "State: " +:+ py_str v))
        (fun code msg =>
           let* _ := log logger ERROR
             "Couldn't display your instance. Here's why: %s: %s" [code; msg] in
           raise (ClientError code msg))
  end.

Definition terminate : M P unit :=
  let* tracked := get_instance in
  match tracked with
  | None => log logger INFO "No instance to terminate." []
  | Some _ =>
      let* instance_id := self_instance_getitem "InstanceId" in
      try_except_ClientError
        (let* _ := call terminate_instances
                     {["InstanceIds" := PList [instance_id]]} in
         let* _ := call (waiter_wait "instance_terminated")
                     {["InstanceIds" := PList [instance_id]]} in
         set_instance None)
        (fun code msg =>
           let* _ := log logging ERROR
             "Couldn't terminate instance %s. Here's why: %s: %s"
             [py_str instance_id; code; msg] in
           raise (ClientError code msg))
  end.

Definition start : M P (option pyval) :=
  let* tracked := get_instance in
  match tracked with
  | None =>
      let* _ := log logger INFO "No instance to start." [] in
      ret None
  | Some _ =>
      let* response :=
        try_except_ClientError
          (let* instance_id := self_instance_getitem "InstanceId" in
           let* response :=
             call start_instances {["InstanceIds" := PList [instance_id]]} in
           let* instance_id := self_instance_getitem "InstanceId" in
           let* _ := call (waiter_wait "instance_running")
                       {["InstanceIds" := PList [instance_id]]} in
           ret response)
          (fun code msg =>
             let* instance_id := self_instance_getitem "InstanceId" in
             let* _ := log logger ERROR
               "Couldn't start instance %s. Here's why: %s: %s"
               [py_str instance_id; code; msg] in
             raise (ClientError code msg)) in
      ret (Some response)
  end.

Definition stop : M P (option pyval) :=
  let* tracked := get_instance in
  match tracked with
  | None =>
      let* _ := log logger INFO "No instance to stop." [] in
      ret None
  | Some _ =>
      let* response :=
        try_except_ClientError
          (let* instance_id := self_instance_getitem "InstanceId" in
           let* response :=
             call stop_instances {["InstanceIds" := PList [instance_id]]} in
           let* instance_id := self_instance_getitem "InstanceId" in
           let* _ := call (waiter_wait "instance_stopped")
                       {["InstanceIds" := PList [instance_id]]} in
           ret response)
          (fun code msg =>
             let* instance_id := self_instance_getitem "InstanceId" in
             let* _ := log logger ERROR
               "Couldn't stop instance %s. Here's why: %s: %s"
               [py_str instance_id; code; msg] in
             raise (ClientError code msg)) in
      ret (Some response)
  end.

Definition get_images (image_ids : pyval) : M P pyval :=
  try_except_ClientError
    (let* response := call describe_images {["ImageIds" := image_ids]} in
     lift (getitem response "Images"))
    (fun code msg =>
       let* _ := log logger ERROR
         "Couldn't get images. Here's why: %s: %s" [code; msg] in
       raise (ClientError code msg)).

(** The [Filters] argument of [get_instance_types]. *)
Definition instance_type_filters (architecture : pyval) : pyval :=
  PList
    [PDict (<["Values" := PList [architecture]]>
              {["Name" := PStr "processor-info.supported-architecture"]});
     PDict (<["Values" := PList [PStr "*.micro"; PStr "*.small"]]>
              {["Name" := PStr "instance-type"]})].

Definition get_instance_types (architecture : pyval) : M P (list pyval) :=
  try_except_ClientError
    (let* response :=
       call describe_instance_types
         {["Filters" := instance_type_filters architecture]} in
     let* instance_types := lift (getitem response "InstanceTypes") in
     let* its := lift (py_iter instance_types) in
     lift (comprehension (fun it => getitem it "InstanceType") its))
    (fun code msg =>
       let* _ := log logger ERROR
         "Couldn't get instance types. Here's why: %s: %s" [code; msg] in
       raise (ClientError code msg)).

End InstanceWrapper.

(** ** Calls from outside

    One call of a method by a caller, with its arguments; [invoke] runs it and
    keeps the exception, if one came out. *)

Inductive invocation : Type :=
| Create (image instance_type key_pair : pyval) (security_groups : option pyval)
| Display (indent : Z)
| Terminate
| Start
| Stop
| GetImages (image_ids : pyval)
| GetInstanceTypes (architecture : pyval).

Definition raised {A} (r : result A) : option exn :=
  match r with
  | inl e => Some e
  | inr _ => None
  end.

Definition invoke {P} (ec2_client : P -> request -> P * result pyval)
    (py_repr : pyval -> string) (c : invocation) (w : world P)
    : world P * option exn :=
  match c with
  | Create image instance_type key_pair security_groups =>
      prod_map id raised
        (create ec2_client py_repr image instance_type key_pair security_groups w)
  | Display indent => prod_map id raised (display ec2_client py_repr indent w)
  | Terminate => prod_map id raised (terminate ec2_client py_repr w)
  | Start => prod_map id raised (start ec2_client py_repr w)
  | Stop => prod_map id raised (stop ec2_client py_repr w)
  | GetImages image_ids => prod_map id raised (get_images ec2_client image_ids w)
  | GetInstanceTypes architecture =>
      prod_map id raised (get_instance_types ec2_client architecture w)
  end.

Definition is_create (c : invocation) : bool :=
  match c with
  | Create _ _ _ _ => true
  | _ => false
  end.

(** The requests a call may send, in the order it sends them. *)
Definition allowed_operations (c : invocation) : list operation :=
  match c with
  | Create _ _ _ _ => [run_instances; waiter_wait "instance_running"]
  | Display _ => [describe_instances]
  | Terminate => [terminate_instances; waiter_wait "instance_terminated"]
  | Start => [start_instances; waiter_wait "instance_running"]
  | Stop => [stop_instances; waiter_wait "instance_stopped"]
  | GetImages _ => [describe_images]
  | GetInstanceTypes _ => [describe_instance_types]
  end.

(** ** The provider's side of a filter

    [get_instance_types] filters nothing itself: it sends [Filters] and trusts
    the reply. What a provider that applies the filters promises is written
    down here, to be assumed where a statement needs it. In a filter value
    [*] stands for any run of characters and [?] for any one character. *)

Fixpoint glob (pattern s : list ascii) : bool :=
  match pattern with
  | [] =>
      match s with
      | [] => true
      | _ :: _ => false
      end
  | c :: pattern' =>
      if Ascii.eqb c "*" then
        (fix star (s : list ascii) : bool :=
           glob pattern' s ||
           match s with
           | [] => false
           | _ :: s' => star s'
           end) s
      else
        match s with
        | [] => false
        | d :: s' => (Ascii.eqb c "?" || Ascii.eqb c d) && glob pattern' s'
        end
  end.

Definition wildcard_match (pattern name : string) : bool :=
  glob (list_ascii_of_string pattern) (list_ascii_of_string name).

(** The values of the filters called [name] in a [Filters] argument. *)
Definition filter_values (filters : pyval) (name : string) : list pyval :=
  match filters with
  | PList fs =>
      flat_map
        (fun f =>
           match getitem f "Name", getitem f "Values" with
           | inr (PStr n), inr (PList vs) => if decide (n = name) then vs else []
           | _, _ => []
           end) fs
  | _ => []
  end.

(** A reply honours the filters when each of its records carries a type name
    that matches one of the [instance-type] patterns and describes a type that
    supports one of the requested architectures. [supports arch it] is the
    provider's own relation between an architecture and a record. *)
Definition honours_filters (supports : pyval -> pyval -> Prop)
    (filters : pyval) (reply : list pyval) : Prop :=
  forall it, it ∈ reply ->
    (exists n pattern,
        getitem it "InstanceType" = inr (PStr n) /\
        PStr pattern ∈ filter_values filters "instance-type" /\
        wildcard_match pattern n = true) /\
    (exists arch,
        arch ∈ filter_values filters "processor-info.supported-architecture" /\
        supports arch it).

(** A type name ends in a micro or small size class. *)
Definition micro_or_small (name : pyval) : Prop :=
  exists family, name = PStr (family +:+ ".micro") \/ name = PStr (family +:+ ".small").

(** The common shape of [start] and [stop]: the request [o], the waiter
    [target] and the verb of the messages. *)
Definition start_or_stop {P} (ec2_client : P -> request -> P * result pyval)
    (py_repr : pyval -> string) (o : operation) (target verb : string)
    : M P (option pyval) :=
  let* tracked := get_instance in
  match tracked with
  | None =>
      let* _ := log logger INFO ("No instance to " +:+ verb +:+ ".") [] in
      ret None
  | Some _ =>
      let* response :=
        try_except_ClientError
          (let* instance_id := self_instance_getitem "InstanceId" in
           let* response :=
             call ec2_client o {["InstanceIds" := PList [instance_id]]} in
           let* instance_id := self_instance_getitem "InstanceId" in
           let* _ := call ec2_client (waiter_wait target)
                       {["InstanceIds" := PList [instance_id]]} in
           ret response)
          (fun code msg =>
             let* instance_id := self_instance_getitem "InstanceId" in
             let* _ := log logger ERROR
               ("Couldn't " +:+ verb +:+ " instance %s. Here's why: %s: %s")
               [py_str py_repr instance_id; code; msg] in
             raise (ClientError code msg)) in
      ret (Some response)
  end.

(** The world after an informational record and nothing else. *)
Definition noted {P} (w : world P) (line : string) : world P :=
  World (instance w) (provider w) (requests w) (stdout w)
    (records w ++ [LogRecord logger INFO line]).

(** The keyword arguments [InstanceIds=[id]]. *)
Definition instance_ids (id : pyval) : gmap string pyval :=
  {["InstanceIds" := PList [id]]}.

(** The keyword arguments [create] passes to [run_instances]. *)
Definition run_instances_kwargs (image instance_type key_pair : pyval)
    (security_groups : option pyval) : gmap string pyval :=
  let instance_params : gmap string pyval :=
    <["KeyName" := key_pair]>
      (<["InstanceType" := instance_type]> {["ImageId" := image]}) in
  let instance_params :=
    match security_groups with
    | Some sg => <["SecurityGroupIds" := sg]> instance_params
    | None => instance_params
    end in
  <["MaxCount" := PInt 1]> (<["MinCount" := PInt 1]> instance_params).

(** The record [create] logs when a [ClientError] reaches its handler. *)
Definition create_error_record (py_repr : pyval -> string)
    (image instance_type key_pair : pyval) (code msg : string) : log_record :=
  LogRecord logging ERROR
    (percent_format
       ("Couldn't create instance with image %s, instance type %s, and key %s. "
        +:+ "Here's why: %s: %s")
       [py_str py_repr image; py_str py_repr instance_type;
        py_str py_repr key_pair; code; msg]).

(** The record [terminate] logs when a [ClientError] reaches its handler. *)
Definition terminate_error_record (py_repr : pyval -> string)
    (instance_id : pyval) (code msg : string) : log_record :=
  LogRecord logging ERROR
    (percent_format "Couldn't terminate instance %s. Here's why: %s: %s"
       [py_str py_repr instance_id; code; msg]).

(** A line of [display]: the indent, the label, the value. *)
Definition display_line (py_repr : pyval -> string) (indent : Z)
    (label : string) (v : pyval) : string :=
  str_mul tab indent +:+ label +:+ py_str py_repr v.

(** What a handler adds to the log for an exception that leaves its [try]
    block: its error record when the exception is a [ClientError], the only
    kind the handlers catch, and nothing for any other. *)
Definition logged_if_caught (e : exn) (record : string -> string -> log_record)
    : list log_record :=
  match e with
  | ClientError code msg => [record code msg]
  | WaiterError _ | KeyError _ | IndexError | TypeError => []
  end.

(** A statement that leaves [self.instance] as it found it, however it ends. *)
Definition keeps_instance {P A} (m : M P A) : Prop :=
  forall w, instance (m w).1 = instance w.

(** ** A client for the examples

    A test double in the manner of botocore's [Stubber]: the provider's state is
    the queue of outcomes still to hand out, one per request, whatever the
    request is. *)

Definition stubbed (queue : list (result pyval)) (_ : request)
    : list (result pyval) * result pyval :=
  match queue with
  | r :: rest => (rest, r)
  | [] => ([], inl (ClientError "StubQueueEmpty" "no response queued"))
  end.

(** A stand-in for [str] on lists and dicts at the examples. *)
Definition opaque_repr (_ : pyval) : string := "<object>".

Definition fresh (queue : list (result pyval)) : world (list (result pyval)) :=
  World None queue [] [] [].

Definition tracking (i : pyval) (queue : list (result pyval))
    : world (list (result pyval)) :=
  World (Some i) queue [] [] [].

Definition instance_record (id : string) : pyval :=
  PDict {["InstanceId" := PStr id]}.

(** The reply to [run_instances] that carries one record with the given id. *)
Definition run_reply (id : string) : pyval :=
  PDict {["Instances" := PList [instance_record id]]}.


Definition stopped_fields : gmap string pyval :=
  <["State" := PDict {["Name" := PStr "stopped"]}]>
    (<["VpcId" := PStr "vpc-1"]>
    (<["KeyName" := PStr "key"]>
    (<["InstanceType" := PStr "t2.micro"]>
    (<["ImageId" := PStr "ami-1"]>
    {["InstanceId" := PStr "i-1"]})))).

Definition stopped_snapshot : pyval := PDict stopped_fields.

Definition describe_reply (snapshots : list pyval) : pyval :=
  PDict {["Reservations" := PList [PDict {["Instances" := PList snapshots]}]]}.

(** A type record as [describe_instance_types] gives it. *)
Definition type_record (name : string) : pyval :=
  PDict {["InstanceType" := PStr name]}.

Definition types_reply (records : list pyval) : pyval :=
  PDict {["InstanceTypes" := PList records]}.

Definition images_reply (images : list pyval) : pyval :=
  PDict {["Images" := PList images]}.

(** A provider's relation for the examples: every record supports every
    architecture. *)
Definition supports_all (_ _ : pyval) : Prop := True.

(** * Properties *)

(** ** Statements that leave [self.instance] alone *)

Section Steps.
Context {P : Type}.
Variable ec2_client : P -> request -> P * result pyval.

Lemma keeps_ret {A} (a : A) : keeps_instance (P:=P) (ret a).
Proof. now intros w. Qed.

Lemma keeps_raise {A} e : keeps_instance (P:=P) (A:=A) (raise e).
Proof. now intros w. Qed.

Lemma keeps_lift {A} (r : result A) : keeps_instance (P:=P) (lift r).
Proof. now intros w. Qed.

Lemma keeps_get_instance : keeps_instance (P:=P) get_instance.
Proof. now intros w. Qed.

Lemma keeps_self_instance_getitem k :
  keeps_instance (P:=P) (self_instance_getitem k).
Proof. intros w. unfold self_instance_getitem. now destruct (instance w) eqn:E. Qed.

Lemma keeps_call o kw : keeps_instance (call ec2_client o kw).
Proof. intros w. unfold call. now destruct (ec2_client _ _). Qed.

Lemma keeps_print line : keeps_instance (P:=P) (print line).
Proof. now intros w. Qed.

Lemma keeps_log e l fmt args : keeps_instance (P:=P) (log e l fmt args).
Proof. now intros w. Qed.

Lemma keeps_bind {A B} (m : M P A) (k : A -> M P B) :
  keeps_instance m -> (forall a, keeps_instance (k a)) -> keeps_instance (bind m k).
Proof.
  intros Hm Hk w. unfold bind. specialize (Hm w).
  destruct (m w) as [w' [e | a]]; simpl in *; [assumption |].
  now rewrite Hk.
Qed.

Lemma keeps_try {A} (body : M P A) handler :
  keeps_instance body -> (forall code msg, keeps_instance (handler code msg)) ->
  keeps_instance (try_except_ClientError body handler).
Proof.
  intros Hb Hh w. unfold try_except_ClientError. specialize (Hb w).
  destruct (body w) as [w' [[] | a]]; simpl in *; try assumption.
  now rewrite Hh.
Qed.

End Steps.

Create HintDb frame.
#[export] Hint Resolve keeps_ret keeps_raise keeps_lift keeps_get_instance
  keeps_self_instance_getitem keeps_call keeps_print keeps_log : frame.

Ltac frame :=
  repeat first
    [ apply keeps_bind; [| intros ?]
    | apply keeps_try; [| intros ? ?]
    | match goal with |- keeps_instance (match ?x with _ => _ end) => destruct x end
    | solve [auto with frame] ].

Section Frame.
Context {P : Type}.
Variable ec2_client : P -> request -> P * result pyval.
Variable py_repr : pyval -> string.

Lemma display_keeps indent : keeps_instance (display ec2_client py_repr indent).
Proof. unfold display. frame. Qed.

Lemma start_keeps : keeps_instance (start ec2_client py_repr).
Proof. unfold start. frame. Qed.

Lemma stop_keeps : keeps_instance (stop ec2_client py_repr).
Proof. unfold stop. frame. Qed.

Lemma get_images_keeps ids : keeps_instance (get_images ec2_client ids).
Proof. unfold get_images. frame. Qed.

Lemma get_instance_types_keeps arch :
  keeps_instance (get_instance_types ec2_client arch).
Proof. unfold get_instance_types. frame. Qed.
End Frame.

Ltac statements :=
  unfold start_or_stop, try_except_ClientError, bind, call, lift, ret, raise,
    log, print, get_instance, set_instance, self_instance_getitem, noted,
    instance_ids in *.

Ltac open_world w :=
  destruct w as [tracked p sent out logged]; simpl in *; subst.

Section StartStop.
Context {P : Type}.
Variable ec2_client : P -> request -> P * result pyval.
Variable py_repr : pyval -> string.

Lemma start_shape :
  start ec2_client py_repr =
  start_or_stop ec2_client py_repr start_instances "instance_running" "start".
Proof. reflexivity. Qed.

Lemma stop_shape :
  stop ec2_client py_repr =
  start_or_stop ec2_client py_repr stop_instances "instance_stopped" "stop".
Proof. reflexivity. Qed.

Lemma start_or_stop_untracked o target verb (w : world P) :
  instance w = None ->
  start_or_stop ec2_client py_repr o target verb w =
    (noted w ("No instance to " +:+ verb +:+ "."), inr None).
Proof. intros H. open_world w. reflexivity. Qed.


End StartStop.

(** ** Methods called with no instance tracked *)

Section Untracked.
Context {P : Type}.
Variable ec2_client : P -> request -> P * result pyval.
Variable py_repr : pyval -> string.

(** C4. With no tracked instance, [start], [stop], [display] and [terminate]
    return normally, send nothing to the provider and change nothing but the
    log, which gains one informational record. *)
Theorem untracked_is_logged_noop (w : world P) (indent : Z) :
  instance w = None ->
  start ec2_client py_repr w = (noted w "No instance to start.", inr None) /\
  stop ec2_client py_repr w = (noted w "No instance to stop.", inr None) /\
  display ec2_client py_repr indent w
    = (noted w "No instance to display.", inr tt) /\
  terminate ec2_client py_repr w
    = (noted w "No instance to terminate.", inr tt).
Proof.
  intros H. repeat split.
  - rewrite start_shape. now apply start_or_stop_untracked.
  - rewrite stop_shape. now apply start_or_stop_untracked.
  - open_world w. reflexivity.
  - open_world w. reflexivity.
Qed.

(** The record aside, [noted] is the identity. *)
Lemma noted_frame (w : world P) line :
  instance (noted w line) = instance w /\
  provider (noted w line) = provider w /\
  requests (noted w line) = requests w /\
  stdout (noted w line) = stdout w.
Proof. now repeat split. Qed.
End Untracked.

Lemma untracked_is_logged_noop_witness :
  instance (fresh []) = None /\
  start stubbed opaque_repr (fresh [])
    = (World None [] [] [] [LogRecord logger INFO "No instance to start."],
       inr None) /\
  terminate stubbed opaque_repr (fresh [])
    = (World None [] [] [] [LogRecord logger INFO "No instance to terminate."],
       inr tt).
Proof.
  pose proof (untracked_is_logged_noop stubbed opaque_repr (fresh []) 1 eq_refl)
    as (Hstart & _ & _ & Hterminate).
  split; [reflexivity |]. split; [exact Hstart | exact Hterminate].
Defined.

(** ** [start] and [stop] *)

Section StartStopClaims.
Context {P : Type}.
Variable ec2_client : P -> request -> P * result pyval.
Variable py_repr : pyval -> string.

End StartStopClaims.


(** ** [create] *)

Ltac cases :=
  repeat (simpl in *;
          match goal with
          | |- context [match ?x with _ => _ end] =>
              lazymatch x with
              | context [match _ with _ => _ end] => fail
              | _ => destruct x eqn:?
              end
          end).

Section Create.
Context {P : Type}.
Variable ec2_client : P -> request -> P * result pyval.
Variable py_repr : pyval -> string.

(** What the request of [create] holds, key by key. *)
Lemma run_instances_kwargs_lookup image instance_type key_pair security_groups :
  let kw := run_instances_kwargs image instance_type key_pair security_groups in
  kw !! "ImageId" = Some image /\
  kw !! "InstanceType" = Some instance_type /\
  kw !! "KeyName" = Some key_pair /\
  kw !! "SecurityGroupIds" = security_groups /\
  kw !! "MinCount" = Some (PInt 1) /\
  kw !! "MaxCount" = Some (PInt 1) /\
  (forall k, k ∉ ["ImageId"; "InstanceType"; "KeyName"; "SecurityGroupIds";
                  "MinCount"; "MaxCount"] -> kw !! k = None).
Proof.
  unfold run_instances_kwargs.
  destruct security_groups as [sg |]; repeat split;
    try (intros k Hk; repeat rewrite not_elem_of_cons in Hk;
         destruct Hk as (? & ? & ? & ? & ? & ? & _));
    simplify_map_eq; reflexivity.
Qed.

Lemma create_request_fails image instance_type key_pair security_groups
    (w : world P) p1 code msg :
  ec2_client (provider w)
    (Request run_instances
       (run_instances_kwargs image instance_type key_pair security_groups))
    = (p1, inl (ClientError code msg)) ->
  create ec2_client py_repr image instance_type key_pair security_groups w =
    (World (instance w) p1
       (requests w ++
          [Request run_instances
             (run_instances_kwargs image instance_type key_pair security_groups)])
       (stdout w)
       (records w ++ [create_error_record py_repr image instance_type key_pair code msg]),
     inl (ClientError code msg)).
Proof.
  intros H. open_world w. unfold create, run_instances_kwargs in *. statements.
  simpl. rewrite H. reflexivity.
Qed.

Lemma create_wait_fails image instance_type key_pair security_groups
    (w : world P) p1 response instances inst id p2 code msg :
  ec2_client (provider w)
    (Request run_instances
       (run_instances_kwargs image instance_type key_pair security_groups))
    = (p1, inr response) ->
  getitem response "Instances" = inr instances ->
  getindex instances 0 = inr inst ->
  getitem inst "InstanceId" = inr id ->
  ec2_client p1 (Request (waiter_wait "instance_running") (instance_ids id))
    = (p2, inl (ClientError code msg)) ->
  create ec2_client py_repr image instance_type key_pair security_groups w =
    (World (Some inst) p2
       (requests w ++
          [Request run_instances
             (run_instances_kwargs image instance_type key_pair security_groups);
           Request (waiter_wait "instance_running") (instance_ids id)])
       (stdout w)
       (records w ++ [create_error_record py_repr image instance_type key_pair code msg]),
     inl (ClientError code msg)).
Proof.
  intros H1 Hr Hi Hid H2. open_world w.
  unfold create, run_instances_kwargs in *. statements.
  simpl. rewrite H1. simpl. rewrite Hr. simpl. rewrite Hi. simpl.
  rewrite Hid. simpl. rewrite H2. simpl. now rewrite <- app_assoc.
Qed.

Lemma create_succeeds image instance_type key_pair security_groups
    (w : world P) p1 response instances inst id p2 done :
  ec2_client (provider w)
    (Request run_instances
       (run_instances_kwargs image instance_type key_pair security_groups))
    = (p1, inr response) ->
  getitem response "Instances" = inr instances ->
  getindex instances 0 = inr inst ->
  getitem inst "InstanceId" = inr id ->
  ec2_client p1 (Request (waiter_wait "instance_running") (instance_ids id))
    = (p2, inr done) ->
  create ec2_client py_repr image instance_type key_pair security_groups w =
    (World (Some inst) p2
       (requests w ++
          [Request run_instances
             (run_instances_kwargs image instance_type key_pair security_groups);
           Request (waiter_wait "instance_running") (instance_ids id)])
       (stdout w) (records w),
     inr id).
Proof.
  intros H1 Hr Hi Hid H2. open_world w.
  unfold create, run_instances_kwargs in *. statements.
  simpl. rewrite H1. simpl. rewrite Hr. simpl. rewrite Hi. simpl.
  rewrite Hid. simpl. rewrite H2. simpl. rewrite Hid. now rewrite <- app_assoc.
Qed.

Lemma create_returns image instance_type key_pair security_groups
    (w w' : world P) id :
  create ec2_client py_repr image instance_type key_pair security_groups w
    = (w', inr id) ->
  exists p1 response instances inst p2 done,
    ec2_client (provider w)
      (Request run_instances
         (run_instances_kwargs image instance_type key_pair security_groups))
      = (p1, inr response) /\
    getitem response "Instances" = inr instances /\
    getindex instances 0 = inr inst /\
    getitem inst "InstanceId" = inr id /\
    ec2_client p1 (Request (waiter_wait "instance_running") (instance_ids id))
      = (p2, inr done) /\
    w' = World (Some inst) p2
           (requests w ++
              [Request run_instances
                 (run_instances_kwargs image instance_type key_pair
                    security_groups);
               Request (waiter_wait "instance_running") (instance_ids id)])
           (stdout w) (records w).
Proof.
  intros H. open_world w. unfold create, run_instances_kwargs in *. statements.
  simpl in H.
  destruct (ec2_client p _) as [p1 [e | response]] eqn:H1; simpl in H.
  { destruct e; discriminate. }
  destruct (getitem response "Instances") as [e | instances] eqn:Hr; simpl in H.
  { destruct e; discriminate. }
  destruct (getindex instances 0) as [e | inst] eqn:Hi; simpl in H.
  { destruct e; discriminate. }
  destruct (getitem inst "InstanceId") as [e | id'] eqn:Hid; simpl in H.
  { destruct e; discriminate. }
  destruct (ec2_client p1 _) as [p2 [e | done]] eqn:H2; simpl in H.
  { destruct e; discriminate. }
  rewrite Hid in H. simpl in H. injection H as <- <-.
  exists p1, response, instances, inst, p2, done.
  rewrite <- app_assoc. repeat split; assumption.
Qed.

(** [create] leaves [self.instance] alone or sets it to a record. *)
Lemma create_keeps_or_sets image instance_type key_pair security_groups
    (w : world P) :
  let w' :=
    (create ec2_client py_repr image instance_type key_pair security_groups w).1 in
  instance w' = instance w \/ is_Some (instance w').
Proof.
  open_world w. unfold create. statements. cases; eauto.
Qed.
End Create.

Section CreateClaims.
Context {P : Type}.
Variable ec2_client : P -> request -> P * result pyval.
Variable py_repr : pyval -> string.

(** C1, amended. Whatever exception the [run_instances] request fails with,
    [create] raises that same exception and leaves the tracked reference as it
    was (unset when it was unset). Whatever exception the wait for
    [instance_running] fails with after the request went through, [create]
    raises that same exception too, but the tracked reference is by then the
    new instance. In both cases the failure is logged, once and at error
    level, exactly when it is a [ClientError]; a failure of another kind, such
    as a waiter that gives up, comes out unlogged. *)
Theorem create_failure_reference image instance_type key_pair security_groups
    (w : world P) e :
  let kw := run_instances_kwargs image instance_type key_pair security_groups in
  let logged :=
    logged_if_caught e (create_error_record py_repr image instance_type key_pair) in
  (forall p1,
      ec2_client (provider w) (Request run_instances kw) = (p1, inl e) ->
      create ec2_client py_repr image instance_type key_pair security_groups w =
        (World (instance w) p1 (requests w ++ [Request run_instances kw])
           (stdout w) (records w ++ logged),
         inl e)) /\
  (forall p1 response instances inst id p2,
      ec2_client (provider w) (Request run_instances kw) = (p1, inr response) ->
      getitem response "Instances" = inr instances ->
      getindex instances 0 = inr inst ->
      getitem inst "InstanceId" = inr id ->
      ec2_client p1 (Request (waiter_wait "instance_running") (instance_ids id))
        = (p2, inl e) ->
      create ec2_client py_repr image instance_type key_pair security_groups w =
        (World (Some inst) p2
           (requests w ++
              [Request run_instances kw;
               Request (waiter_wait "instance_running") (instance_ids id)])
           (stdout w) (records w ++ logged),
         inl e)).
Proof.
  intros kw logged. subst kw logged. split.
  - intros p1 H. destruct e as [code msg | | | |];
      [now apply create_request_fails | ..];
      open_world w; unfold create, run_instances_kwargs in *; statements;
      simpl; rewrite H; simpl; now rewrite app_nil_r.
  - intros p1 response instances inst id p2 H1 Hr Hi Hid H2.
    destruct e as [code msg | | | |];
      [eapply create_wait_fails; eauto | ..];
      open_world w; unfold create, run_instances_kwargs in *; statements;
      simpl; rewrite H1; simpl; rewrite Hr; simpl; rewrite Hi; simpl;
      rewrite Hid; simpl; rewrite H2; simpl;
      now rewrite app_nil_r, <- app_assoc.
Qed.

(** C2, amended. Whenever [create] returns, its one request to [run_instances]
    held the given image, instance type and key-pair name, the security groups
    exactly when some were given, [MinCount] and [MaxCount] of 1 and nothing
    else; the provider answered it; the wait on [instance_running] for the id
    of the first record of the answer returned; that record is the tracked
    reference; and the value returned is the identifier that record holds,
    whatever it is. *)
Theorem create_success image instance_type key_pair security_groups
    (w w' : world P) id :
  create ec2_client py_repr image instance_type key_pair security_groups w
    = (w', inr id) ->
  let kw := run_instances_kwargs image instance_type key_pair security_groups in
  (kw !! "ImageId" = Some image /\
   kw !! "InstanceType" = Some instance_type /\
   kw !! "KeyName" = Some key_pair /\
   kw !! "SecurityGroupIds" = security_groups /\
   kw !! "MinCount" = Some (PInt 1) /\
   kw !! "MaxCount" = Some (PInt 1) /\
   (forall k, k ∉ ["ImageId"; "InstanceType"; "KeyName"; "SecurityGroupIds";
                   "MinCount"; "MaxCount"] -> kw !! k = None)) /\
  exists p1 response instances inst p2 done,
    ec2_client (provider w) (Request run_instances kw) = (p1, inr response) /\
    getitem response "Instances" = inr instances /\
    getindex instances 0 = inr inst /\
    getitem inst "InstanceId" = inr id /\
    ec2_client p1 (Request (waiter_wait "instance_running") (instance_ids id))
      = (p2, inr done) /\
    w' = World (Some inst) p2
           (requests w ++
              [Request run_instances kw;
               Request (waiter_wait "instance_running") (instance_ids id)])
           (stdout w) (records w).
Proof.
  intros H kw. split.
  - apply run_instances_kwargs_lookup.
  - exact (create_returns ec2_client py_repr _ _ _ _ _ _ _ H).
Qed.
End CreateClaims.

(** C1 as stated fails, twice over. The request goes through and the wait
    fails with a [ClientError]: the wrapper that tracked nothing now tracks the
    new instance. The request goes through and the waiter gives up: what comes
    out is no [ClientError], nothing is logged, and the new instance is
    tracked as well. *)
Lemma create_wait_failure_sets_reference :
  let refused := fresh [inr (run_reply "i-1");
                        inl (ClientError "InternalError" "wait failed")] in
  let timed_out := fresh [inr (run_reply "i-1");
                          inl (WaiterError "Max attempts exceeded")] in
  let create_on w :=
    create stubbed opaque_repr (PStr "ami-1") (PStr "t2.micro") (PStr "key")
      None w in
  (instance refused = None /\
   (create_on refused).2 = inl (ClientError "InternalError" "wait failed") /\
   instance (create_on refused).1 = Some (instance_record "i-1") /\
   instance (create_on refused).1 <> None) /\
  (instance timed_out = None /\
   (create_on timed_out).2 = inl (WaiterError "Max attempts exceeded") /\
   (forall code msg, (create_on timed_out).2 <> inl (ClientError code msg)) /\
   records (create_on timed_out).1 = [] /\
   instance (create_on timed_out).1 = Some (instance_record "i-1") /\
   instance (create_on timed_out).1 <> None).
Proof. repeat split; discriminate. Qed.

Lemma create_failure_reference_witness :
  let kw := run_instances_kwargs (PStr "ami-1") (PStr "t2.micro") (PStr "key")
              None in
  create stubbed opaque_repr (PStr "ami-1") (PStr "t2.micro") (PStr "key") None
    (fresh [inr (run_reply "i-1"); inl (WaiterError "Max attempts exceeded")]) =
    (World (Some (instance_record "i-1")) []
       [Request run_instances kw;
        Request (waiter_wait "instance_running") (instance_ids (PStr "i-1"))]
       [] [],
     inl (WaiterError "Max attempts exceeded")) /\
  create stubbed opaque_repr (PStr "ami-1") (PStr "t2.micro") (PStr "key") None
    (fresh [inl (ClientError "InvalidAMIID.NotFound" "no such image")]) =
    (World None [] [Request run_instances kw] []
       [LogRecord logging ERROR
          ("Couldn't create instance with image ami-1, instance type t2.micro, "
           +:+ "and key key. Here's why: InvalidAMIID.NotFound: no such image")],
     inl (ClientError "InvalidAMIID.NotFound" "no such image")).
Proof.
  intros kw. split.
  - exact (proj2 (create_failure_reference stubbed opaque_repr (PStr "ami-1")
                    (PStr "t2.micro") (PStr "key") None
                    (fresh [inr (run_reply "i-1");
                            inl (WaiterError "Max attempts exceeded")])
                    (WaiterError "Max attempts exceeded"))
             _ (run_reply "i-1") (PList [instance_record "i-1"])
             (instance_record "i-1") (PStr "i-1") _
             eq_refl eq_refl eq_refl eq_refl eq_refl).
  - exact (proj1 (create_failure_reference stubbed opaque_repr (PStr "ami-1")
                    (PStr "t2.micro") (PStr "key") None
                    (fresh [inl (ClientError "InvalidAMIID.NotFound"
                                   "no such image")])
                    (ClientError "InvalidAMIID.NotFound" "no such image"))
             _ eq_refl).
Defined.

(** C2 as stated fails: a provider whose record holds the empty identifier
    makes [create] return, and the value returned is that empty string. *)
Lemma create_returns_empty_identifier :
  let w := fresh [inr (run_reply ""); inr (PDict ∅)] in
  let out := create stubbed opaque_repr (PStr "ami-1") (PStr "t2.micro")
               (PStr "key") None w in
  out.2 = inr (PStr "") /\ instance out.1 = Some (instance_record "").
Proof. now split. Qed.

Lemma create_success_witness :
  let w := fresh [inr (run_reply "i-1"); inr (PDict ∅)] in
  let kw := run_instances_kwargs (PStr "ami-1") (PStr "t2.micro") (PStr "key")
              (Some (PList [PStr "sg-1"])) in
  let w' := World (Some (instance_record "i-1")) []
              [Request run_instances kw;
               Request (waiter_wait "instance_running") (instance_ids (PStr "i-1"))]
              [] [] in
  create stubbed opaque_repr (PStr "ami-1") (PStr "t2.micro") (PStr "key")
    (Some (PList [PStr "sg-1"])) w = (w', inr (PStr "i-1")) /\
  kw !! "SecurityGroupIds" = Some (PList [PStr "sg-1"]) /\
  kw !! "MinCount" = Some (PInt 1).
Proof.
  intros w kw w'.
  assert (H : create stubbed opaque_repr (PStr "ami-1") (PStr "t2.micro")
                (PStr "key") (Some (PList [PStr "sg-1"])) w
              = (w', inr (PStr "i-1"))) by reflexivity.
  split; [exact H |].
  destruct (create_success stubbed opaque_repr _ _ _ _ _ _ _ H)
    as [(_ & _ & _ & Hsg & Hmin & _) _].
  split; [exact Hsg | exact Hmin].
Defined.

(** ** [terminate] *)

Section Terminate.
Context {P : Type}.
Variable ec2_client : P -> request -> P * result pyval.
Variable py_repr : pyval -> string.

Lemma terminate_request_fails (w : world P) inst id p1 code msg :
  instance w = Some inst ->
  getitem inst "InstanceId" = inr id ->
  ec2_client (provider w) (Request terminate_instances (instance_ids id))
    = (p1, inl (ClientError code msg)) ->
  terminate ec2_client py_repr w =
    (World (instance w) p1
       (requests w ++ [Request terminate_instances (instance_ids id)])
       (stdout w)
       (records w ++ [terminate_error_record py_repr id code msg]),
     inl (ClientError code msg)).
Proof.
  intros Hi Hid H1. open_world w. unfold terminate. statements.
  simpl. rewrite Hid. simpl. now rewrite H1.
Qed.

Lemma terminate_wait_fails (w : world P) inst id p1 response p2 code msg :
  instance w = Some inst ->
  getitem inst "InstanceId" = inr id ->
  ec2_client (provider w) (Request terminate_instances (instance_ids id))
    = (p1, inr response) ->
  ec2_client p1 (Request (waiter_wait "instance_terminated") (instance_ids id))
    = (p2, inl (ClientError code msg)) ->
  terminate ec2_client py_repr w =
    (World (instance w) p2
       (requests w ++
          [Request terminate_instances (instance_ids id);
           Request (waiter_wait "instance_terminated") (instance_ids id)])
       (stdout w)
       (records w ++ [terminate_error_record py_repr id code msg]),
     inl (ClientError code msg)).
Proof.
  intros Hi Hid H1 H2. open_world w. unfold terminate. statements.
  simpl. rewrite Hid. simpl. rewrite H1. simpl. rewrite H2. simpl.
  now rewrite <- app_assoc.
Qed.

(** However [terminate] ends: a raise leaves [self.instance] as it was, a
    return leaves it unset. *)
Lemma terminate_outcome (w : world P) :
  match (terminate ec2_client py_repr w).2 with
  | inl _ => instance (terminate ec2_client py_repr w).1 = instance w
  | inr _ => instance (terminate ec2_client py_repr w).1 = None
  end.
Proof.
  open_world w. unfold terminate. statements. cases; (reflexivity || congruence).
Qed.

(** C5, amended. Whatever exception the terminate request, or the wait for
    [instance_terminated] after it, fails with, [terminate] raises that same
    exception and still tracks the instance it tracked. The failure is logged,
    once and at error level, exactly when it is a [ClientError]; a failure of
    another kind, such as a waiter that gives up, comes out unlogged. *)
Theorem terminate_failure_keeps_reference (w : world P) inst id e :
  instance w = Some inst ->
  getitem inst "InstanceId" = inr id ->
  let logged := logged_if_caught e (terminate_error_record py_repr id) in
  (forall p1,
      ec2_client (provider w) (Request terminate_instances (instance_ids id))
        = (p1, inl e) ->
      terminate ec2_client py_repr w =
        (World (Some inst) p1
           (requests w ++ [Request terminate_instances (instance_ids id)])
           (stdout w) (records w ++ logged),
         inl e)) /\
  (forall p1 response p2,
      ec2_client (provider w) (Request terminate_instances (instance_ids id))
        = (p1, inr response) ->
      ec2_client p1 (Request (waiter_wait "instance_terminated") (instance_ids id))
        = (p2, inl e) ->
      terminate ec2_client py_repr w =
        (World (Some inst) p2
           (requests w ++
              [Request terminate_instances (instance_ids id);
               Request (waiter_wait "instance_terminated") (instance_ids id)])
           (stdout w) (records w ++ logged),
         inl e)).
Proof.
  intros Hi Hid logged. subst logged. split.
  - intros p1 H1. destruct e as [code msg | | | |];
      [rewrite <- Hi; eapply terminate_request_fails; eauto | ..];
      open_world w; unfold terminate; statements;
      simpl; rewrite Hid; simpl; rewrite H1; simpl; now rewrite app_nil_r.
  - intros p1 response p2 H1 H2. destruct e as [code msg | | | |];
      [rewrite <- Hi; eapply terminate_wait_fails; eauto | ..];
      open_world w; unfold terminate; statements;
      simpl; rewrite Hid; simpl; rewrite H1; simpl; rewrite H2; simpl;
      now rewrite app_nil_r, <- app_assoc.
Qed.
End Terminate.

(** C5 as stated fails: the terminate request goes through and the waiter
    gives up with an exception that is no [ClientError]. It is raised, the
    instance stays tracked, but nothing is logged. *)
Lemma terminate_wait_timeout_is_not_logged :
  let w := tracking (instance_record "i-1")
             [inr (PDict ∅); inl (WaiterError "Max attempts exceeded")] in
  let out := terminate stubbed opaque_repr w in
  out.2 = inl (WaiterError "Max attempts exceeded") /\
  requests out.1 =
    [Request terminate_instances (instance_ids (PStr "i-1"));
     Request (waiter_wait "instance_terminated") (instance_ids (PStr "i-1"))] /\
  records out.1 = records w /\
  records out.1 = [] /\
  instance out.1 = Some (instance_record "i-1").
Proof. now repeat split. Qed.

Lemma terminate_failure_keeps_reference_witness :
  let timed_out := tracking (instance_record "i-1")
                     [inr (PDict ∅); inl (WaiterError "Max attempts exceeded")] in
  let refused := tracking (instance_record "i-1")
                   [inr (PDict ∅); inl (ClientError "InternalError" "wait failed")] in
  let sent :=
    [Request terminate_instances (instance_ids (PStr "i-1"));
     Request (waiter_wait "instance_terminated") (instance_ids (PStr "i-1"))] in
  instance timed_out = Some (instance_record "i-1") /\
  getitem (instance_record "i-1") "InstanceId" = inr (PStr "i-1") /\
  terminate stubbed opaque_repr timed_out =
    (World (Some (instance_record "i-1")) [] sent [] [],
     inl (WaiterError "Max attempts exceeded")) /\
  terminate stubbed opaque_repr refused =
    (World (Some (instance_record "i-1")) [] sent []
       [LogRecord logging ERROR
          "Couldn't terminate instance i-1. Here's why: InternalError: wait failed"],
     inl (ClientError "InternalError" "wait failed")).
Proof.
  intros timed_out refused sent.
  split; [reflexivity |]. split; [reflexivity |]. split.
  - exact (proj2 (terminate_failure_keeps_reference stubbed opaque_repr timed_out
                    (instance_record "i-1") (PStr "i-1")
                    (WaiterError "Max attempts exceeded") eq_refl eq_refl)
             _ (PDict ∅) _ eq_refl eq_refl).
  - exact (proj2 (terminate_failure_keeps_reference stubbed opaque_repr refused
                    (instance_record "i-1") (PStr "i-1")
                    (ClientError "InternalError" "wait failed") eq_refl eq_refl)
             _ (PDict ∅) _ eq_refl eq_refl).
Defined.

(** ** What may change the tracked reference *)

Section Reference.
Context {P : Type}.
Variable ec2_client : P -> request -> P * result pyval.
Variable py_repr : pyval -> string.

Lemma invoke_reference (c : invocation) (w : world P) :
  let w' := (invoke ec2_client py_repr c w).1 in
  instance w' = instance w \/
  (is_create c = true /\ is_Some (instance w')) \/
  (c = Terminate /\ (invoke ec2_client py_repr c w).2 = None /\ instance w' = None).
Proof.
  destruct c; simpl.
  - destruct (create_keeps_or_sets ec2_client py_repr image instance_type
                key_pair security_groups w); auto.
  - left. apply display_keeps.
  - pose proof (terminate_outcome ec2_client py_repr w) as H.
    destruct (terminate ec2_client py_repr w) as [w' [e | []]]; simpl in *; auto.
  - left. apply start_keeps.
  - left. apply stop_keeps.
  - left. apply get_images_keeps.
  - left. apply get_instance_types_keeps.
Qed.

(** C3. Of all the calls a caller can make, only [create] can set the tracked
    reference and only a [terminate] that returns can clear it; [display],
    [get_images] and [get_instance_types] (and [start] and [stop]) leave it
    as it is; and after a [create] that returned, a [terminate] that returns
    leaves it unset. *)
Theorem reference_set_by_create_cleared_by_terminate :
  (forall (c : invocation) (w : world P),
      instance w = None ->
      is_Some (instance (invoke ec2_client py_repr c w).1) ->
      is_create c = true) /\
  (forall (c : invocation) (w : world P),
      is_Some (instance w) ->
      instance (invoke ec2_client py_repr c w).1 = None ->
      c = Terminate /\ (invoke ec2_client py_repr c w).2 = None) /\
  (forall (w : world P) indent image_ids architecture,
      instance (display ec2_client py_repr indent w).1 = instance w /\
      instance (get_images ec2_client image_ids w).1 = instance w /\
      instance (get_instance_types ec2_client architecture w).1 = instance w /\
      instance (start ec2_client py_repr w).1 = instance w /\
      instance (stop ec2_client py_repr w).1 = instance w) /\
  (forall image instance_type key_pair security_groups (w w1 w2 : world P) id,
      create ec2_client py_repr image instance_type key_pair security_groups w
        = (w1, inr id) ->
      terminate ec2_client py_repr w1 = (w2, inr tt) ->
      is_Some (instance w1) /\ instance w2 = None).
Proof.
  split; [| split; [| split]].
  - intros c w Hnone Hsome.
    destruct (invoke_reference c w) as [H | [[H _] | (_ & _ & H)]]; auto.
    + rewrite H, Hnone in Hsome. now destruct Hsome.
    + rewrite H in Hsome. now destruct Hsome.
  - intros c w Hsome Hnone.
    destruct (invoke_reference c w) as [Hk | [[_ Hs] | (Hc & Hr & _)]]; auto.
    + rewrite Hk in Hnone. rewrite Hnone in Hsome. now destruct Hsome.
    + rewrite Hnone in Hs. now destruct Hs.
  - intros w indent image_ids architecture. repeat split.
    + apply display_keeps.
    + apply get_images_keeps.
    + apply get_instance_types_keeps.
    + apply start_keeps.
    + apply stop_keeps.
  - intros image instance_type key_pair security_groups w w1 w2 id Hc Ht. split.
    + apply create_returns in Hc
        as (p1 & ? & ? & inst & p2 & ? & _ & _ & _ & _ & _ & ->).
      now exists inst.
    + pose proof (terminate_outcome ec2_client py_repr w1) as Ho.
      now rewrite Ht in Ho.
Qed.
End Reference.

Lemma reference_set_by_create_cleared_by_terminate_witness :
  let w := fresh [inr (run_reply "i-1"); inr (PDict ∅); inr (PDict ∅); inr (PDict ∅)] in
  let w1 := (create stubbed opaque_repr (PStr "ami-1") (PStr "t2.micro")
               (PStr "key") None w).1 in
  let w2 := (terminate stubbed opaque_repr w1).1 in
  instance w = None /\ is_Some (instance w1) /\ instance w2 = None.
Proof.
  intros w w1 w2. split; [reflexivity |].
  exact (proj2 (proj2 (proj2 (reference_set_by_create_cleared_by_terminate
                                stubbed opaque_repr)))
           (PStr "ami-1") (PStr "t2.micro") (PStr "key") None w w1 w2 (PStr "i-1")
           eq_refl eq_refl).
Defined.

(** ** [display] *)

Section Display.
Context {P : Type}.
Variable ec2_client : P -> request -> P * result pyval.
Variable py_repr : pyval -> string.



(** C10. There are replies on which [display], with a tracked instance, ends in
    a lookup error that its handler does not catch. On a reply with no
    reservation it raises [IndexError] with nothing printed. On a record with
    no [PublicIpAddress] it raises [KeyError] after it has printed the five
    lines before that field. In both cases nothing is logged. *)
Theorem display_unguarded_lookup (w : world P) (indent : Z) inst id p1 response :
  instance w = Some inst ->
  getitem inst "InstanceId" = inr id ->
  ec2_client (provider w) (Request describe_instances (instance_ids id))
    = (p1, inr response) ->
  (getitem response "Reservations" = inr (PList []) ->
   display ec2_client py_repr indent w =
     (World (instance w) p1
        (requests w ++ [Request describe_instances (instance_ids id)])
        (stdout w) (records w),
      inl IndexError)) /\
  (forall d v_id v_image v_type v_key v_vpc,
      described_instance response = inr (PDict d) ->
      d !! "InstanceId" = Some v_id ->
      d !! "ImageId" = Some v_image ->
      d !! "InstanceType" = Some v_type ->
      d !! "KeyName" = Some v_key ->
      d !! "VpcId" = Some v_vpc ->
      d !! "PublicIpAddress" = None ->
      display ec2_client py_repr indent w =
        (World (instance w) p1
           (requests w ++ [Request describe_instances (instance_ids id)])
           (stdout w ++
              [display_line py_repr indent "ID: " v_id;
               display_line py_repr indent "Image ID: " v_image;
               display_line py_repr indent "Instance type: " v_type;
               display_line py_repr indent "Key name: " v_key;
               display_line py_repr indent "VPC ID: " v_vpc])
           (records w),
         inl (KeyError (PStr "PublicIpAddress")))).
Proof.
  intros Hi Hid H1. split.
  - intros Hr. open_world w. unfold display, described_instance. statements.
    simpl. rewrite Hid. simpl. rewrite H1. simpl. now rewrite Hr.
  - intros d v_id v_image v_type v_key v_vpc Hs F1 F2 F3 F4 F5 F6.
    open_world w. unfold display, display_line. statements. simpl.
    rewrite Hid. simpl. rewrite H1. simpl. rewrite Hs. simpl.
    rewrite F1. simpl. rewrite F2. simpl. rewrite F3. simpl. rewrite F4. simpl.
    rewrite F5. simpl. rewrite F6. simpl.
    repeat rewrite <- app_assoc. reflexivity.
Qed.
End Display.


Lemma display_unguarded_lookup_witness :
  display stubbed opaque_repr 1
    (tracking (instance_record "i-1") [inr (PDict {["Reservations" := PList []]})]) =
    (World (Some (instance_record "i-1")) []
       [Request describe_instances (instance_ids (PStr "i-1"))] [] [],
     inl IndexError) /\
  display stubbed opaque_repr 1
    (tracking (instance_record "i-1") [inr (describe_reply [stopped_snapshot])]) =
    (World (Some (instance_record "i-1")) []
       [Request describe_instances (instance_ids (PStr "i-1"))]
       [tab +:+ "ID: i-1";
        tab +:+ "Image ID: ami-1";
        tab +:+ "Instance type: t2.micro";
        tab +:+ "Key name: key";
        tab +:+ "VPC ID: vpc-1"]
       [],
     inl (KeyError (PStr "PublicIpAddress"))).
Proof.
  split.
  - exact (proj1 (display_unguarded_lookup stubbed opaque_repr
                    (tracking (instance_record "i-1")
                       [inr (PDict {["Reservations" := PList []]})])
                    1 (instance_record "i-1") (PStr "i-1") []
                    (PDict {["Reservations" := PList []]})
                    eq_refl eq_refl eq_refl)
             eq_refl).
  - exact (proj2 (display_unguarded_lookup stubbed opaque_repr
                    (tracking (instance_record "i-1")
                       [inr (describe_reply [stopped_snapshot])])
                    1 (instance_record "i-1") (PStr "i-1") []
                    (describe_reply [stopped_snapshot])
                    eq_refl eq_refl eq_refl)
             stopped_fields (PStr "i-1") (PStr "ami-1") (PStr "t2.micro")
             (PStr "key") (PStr "vpc-1")
             eq_refl eq_refl eq_refl eq_refl eq_refl eq_refl eq_refl).
Defined.

(** ** Wildcards *)

Lemma glob_star (pattern s : list ascii) :
  glob ("*"%char :: pattern) s = true <->
  exists s1 s2, s = s1 ++ s2 /\ glob pattern s2 = true.
Proof.
  change (glob ("*"%char :: pattern) s) with
    ((fix star (s : list ascii) : bool :=
        glob pattern s ||
        match s with
        | [] => false
        | _ :: s' => star s'
        end) s).
  induction s as [| c s IH].
  - rewrite orb_false_r. split.
    + intros H. now exists [], [].
    + intros (s1 & s2 & Hs & H). symmetry in Hs.
      apply app_eq_nil in Hs as [-> ->]. exact H.
  - rewrite orb_true_iff, IH. split.
    + intros [H | (s1 & s2 & -> & H)].
      * now exists [], (c :: s).
      * now exists (c :: s1), s2.
    + intros (s1 & s2 & Hs & H). destruct s1 as [| d s1]; simpl in Hs.
      * left. now subst s2.
      * right. injection Hs as -> ->. now exists s1, s2.
Qed.

(** A pattern without wildcards matches itself only. *)
Lemma glob_literal (pattern s : list ascii) :
  forallb (fun c => negb (Ascii.eqb c "*") && negb (Ascii.eqb c "?")) pattern = true ->
  glob pattern s = true <-> s = pattern.
Proof.
  revert s. induction pattern as [| c pattern IH]; intros s Hlit.
  - destruct s; simpl; split; congruence.
  - simpl in Hlit. apply andb_true_iff in Hlit as [Hc Hlit].
    apply andb_true_iff in Hc as [Hstar Hany].
    apply negb_true_iff in Hstar, Hany.
    simpl. rewrite Hstar. destruct s as [| d s]; [split; congruence |].
    rewrite Hany. simpl. rewrite andb_true_iff, (IH s Hlit), Ascii.eqb_eq.
    split; [intros [-> ->] | intros [= -> ->]]; auto.
Qed.

Lemma list_ascii_of_string_app (s1 s2 : string) :
  list_ascii_of_string (s1 +:+ s2)
    = list_ascii_of_string s1 ++ list_ascii_of_string s2.
Proof. induction s1 as [| c s1 IH]; simpl; [reflexivity | now rewrite IH]. Qed.

(** [*] followed by a literal tail: the names that end in the tail. *)
Lemma wildcard_suffix (tail name : string) :
  forallb (fun c => negb (Ascii.eqb c "*") && negb (Ascii.eqb c "?"))
    (list_ascii_of_string tail) = true ->
  wildcard_match ("*" +:+ tail) name = true <->
  exists family, name = family +:+ tail.
Proof.
  intros Hlit. unfold wildcard_match.
  change (list_ascii_of_string ("*" +:+ tail))
    with ("*"%char :: list_ascii_of_string tail).
  rewrite glob_star. split.
  - intros (s1 & s2 & Hs & H). apply (glob_literal _ _ Hlit) in H. subst s2.
    exists (string_of_list_ascii s1).
    rewrite <- (string_of_list_ascii_of_string name), Hs.
    rewrite <- (string_of_list_ascii_of_string (_ +:+ tail)).
    now rewrite list_ascii_of_string_app, list_ascii_of_string_of_list_ascii.
  - intros [family ->].
    exists (list_ascii_of_string family), (list_ascii_of_string tail).
    split; [apply list_ascii_of_string_app | now apply glob_literal].
Qed.

Lemma micro_or_small_wildcards (name : string) :
  micro_or_small (PStr name) <->
  wildcard_match "*.micro" name = true \/ wildcard_match "*.small" name = true.
Proof.
  rewrite (wildcard_suffix ".micro" name eq_refl).
  rewrite (wildcard_suffix ".small" name eq_refl).
  unfold micro_or_small. split.
  - intros [family [[= ->] | [= ->]]]; eauto.
  - intros [[family ->] | [family ->]]; eauto.
Qed.


(** ** [get_images] and [get_instance_types] *)

Section Lookups.
Context {P : Type}.
Variable ec2_client : P -> request -> P * result pyval.

(** Subscription raises no [ClientError]. *)
Lemma getitem_not_ClientError v k code msg : getitem v k <> inl (ClientError code msg).
Proof. destruct v as [| | | | d]; simpl; try discriminate. now destruct (d !! k). Qed.

Lemma comprehension_not_ClientError (xs : list pyval) k code msg :
  comprehension (fun it => getitem it k) xs <> inl (ClientError code msg).
Proof.
  induction xs as [| x xs IH]; simpl; [discriminate |].
  destruct (getitem x k) as [e |] eqn:Hx.
  - intros [= ->]. now apply getitem_not_ClientError in Hx.
  - destruct (comprehension _ xs); congruence.
Qed.

Lemma comprehension_inr {A B} (f : A -> result B) xs ys :
  comprehension f xs = inr ys <-> Forall2 (fun x y => f x = inr y) xs ys.
Proof.
  revert ys. induction xs as [| x xs IH]; intros ys; simpl.
  - split; [intros [= <-]; constructor | now inversion 1].
  - split.
    + destruct (f x) as [| y] eqn:Hx; [discriminate |].
      destruct (comprehension f xs) as [| ys'] eqn:Hxs; [discriminate |].
      intros [= <-]. constructor; [assumption | now apply IH].
    + inversion 1 as [| ? y ? ys' Hx Hxs]; subst. rewrite Hx.
      apply IH in Hxs. now rewrite Hxs.
Qed.

Lemma Forall2_elem_of_r {A B} (R : A -> B -> Prop) (l : list A) (k : list B) y :
  Forall2 R l k -> y ∈ k -> exists x, x ∈ l /\ R x y.
Proof.
  intros HF Hy. apply list_elem_of_lookup in Hy as [i Hi].
  destruct (Forall2_lookup_r _ _ _ _ _ HF Hi) as (x & Hx & HR).
  exists x. split; [| exact HR]. apply list_elem_of_lookup. now exists i.
Qed.

Lemma get_images_forwards (w : world P) image_ids p1 response :
  ec2_client (provider w) (Request describe_images {["ImageIds" := image_ids]})
    = (p1, inr response) ->
  get_images ec2_client image_ids w =
    (World (instance w) p1
       (requests w ++ [Request describe_images {["ImageIds" := image_ids]}])
       (stdout w) (records w),
     getitem response "Images").
Proof.
  intros H1. open_world w. unfold get_images. statements. simpl. rewrite H1.
  simpl. pose proof (getitem_not_ClientError response "Images") as Hne.
  destruct (getitem response "Images") as [[code msg | | | |] |];
    try reflexivity.
  now destruct (Hne code msg).
Qed.

Lemma get_instance_types_forwards (w : world P) architecture p1 response its :
  ec2_client (provider w)
    (Request describe_instance_types
       {["Filters" := instance_type_filters architecture]})
    = (p1, inr response) ->
  getitem response "InstanceTypes" = inr (PList its) ->
  get_instance_types ec2_client architecture w =
    (World (instance w) p1
       (requests w ++
          [Request describe_instance_types
             {["Filters" := instance_type_filters architecture]}])
       (stdout w) (records w),
     comprehension (fun it => getitem it "InstanceType") its).
Proof.
  intros H1 Hits. open_world w. unfold get_instance_types. statements. simpl.
  rewrite H1. simpl. rewrite Hits. simpl.
  pose proof (comprehension_not_ClientError its "InstanceType") as Hne.
  destruct (comprehension _ its) as [[code msg | | | |] |]; try reflexivity.
  now destruct (Hne code msg).
Qed.

Lemma get_instance_types_returns (w w' : world P) architecture names :
  get_instance_types ec2_client architecture w = (w', inr names) ->
  exists p1 response instance_types reply,
    ec2_client (provider w)
      (Request describe_instance_types
         {["Filters" := instance_type_filters architecture]})
      = (p1, inr response) /\
    getitem response "InstanceTypes" = inr instance_types /\
    py_iter instance_types = inr reply /\
    comprehension (fun it => getitem it "InstanceType") reply = inr names.
Proof.
  intros H. open_world w. unfold get_instance_types in H. statements.
  simpl in H.
  destruct (ec2_client p _) as [p1 [e | response]] eqn:H1; simpl in H.
  { destruct e; discriminate. }
  destruct (getitem response "InstanceTypes") as [e | v] eqn:Hv; simpl in H.
  { destruct e; discriminate. }
  destruct (py_iter v) as [e | reply] eqn:Hr; simpl in H.
  { destruct e; discriminate. }
  destruct (comprehension _ reply) as [e | names'] eqn:Hn; simpl in H.
  { destruct e; discriminate. }
  injection H as <- <-. now exists p1, response, v, reply.
Qed.

(** C9, amended. [get_images] passes the list of ids on, empty or not, and
    returns the [Images] entry of the reply as it is: with an empty list of ids
    the result is empty exactly when the provider's reply is. [get_instance_types]
    returns the empty list when the reply lists no type. Neither raises when
    the provider answers so. *)
Theorem empty_lookups (w : world P) :
  (forall p1 response images,
      ec2_client (provider w)
        (Request describe_images {["ImageIds" := PList []]})
        = (p1, inr response) ->
      getitem response "Images" = inr images ->
      get_images ec2_client (PList []) w =
        (World (instance w) p1
           (requests w ++ [Request describe_images {["ImageIds" := PList []]}])
           (stdout w) (records w),
         inr images)) /\
  (forall architecture p1 response,
      ec2_client (provider w)
        (Request describe_instance_types
           {["Filters" := instance_type_filters architecture]})
        = (p1, inr response) ->
      getitem response "InstanceTypes" = inr (PList []) ->
      get_instance_types ec2_client architecture w =
        (World (instance w) p1
           (requests w ++
              [Request describe_instance_types
                 {["Filters" := instance_type_filters architecture]}])
           (stdout w) (records w),
         inr [])).
Proof.
  split.
  - intros p1 response images H1 Hi.
    rewrite (get_images_forwards w _ p1 response H1). now rewrite Hi.
  - intros architecture p1 response H1 Hi.
    now rewrite (get_instance_types_forwards w _ p1 response [] H1 Hi).
Qed.

(** C8, amended. Whenever [get_instance_types] returns, it has sent one
    request whose filters ask for the given architecture and for the name
    patterns [*.micro] and [*.small], and its result is the [InstanceType] of
    each record of the reply, in order: it filters nothing itself. When the
    reply honours the filters, every name returned ends in [.micro] or
    [.small] and comes from a record that supports the architecture. *)
Theorem get_instance_types_names (supports : pyval -> pyval -> Prop)
    (w w' : world P) architecture names :
  get_instance_types ec2_client architecture w = (w', inr names) ->
  let filters := instance_type_filters architecture in
  filter_values filters "processor-info.supported-architecture" = [architecture] /\
  filter_values filters "instance-type" = [PStr "*.micro"; PStr "*.small"] /\
  exists p1 response instance_types reply,
    ec2_client (provider w)
      (Request describe_instance_types {["Filters" := filters]})
      = (p1, inr response) /\
    getitem response "InstanceTypes" = inr instance_types /\
    py_iter instance_types = inr reply /\
    Forall2 (fun it name => getitem it "InstanceType" = inr name) reply names /\
    (honours_filters supports filters reply ->
     forall name, name ∈ names ->
       micro_or_small name /\
       exists it, it ∈ reply /\ getitem it "InstanceType" = inr name /\
                  supports architecture it).
Proof.
  intros H filters. split; [reflexivity |]. split; [reflexivity |].
  apply get_instance_types_returns in H
    as (p1 & response & instance_types & reply & H1 & Hv & Hr & Hn).
  exists p1, response, instance_types, reply.
  apply comprehension_inr in Hn.
  split; [exact H1 |]. split; [exact Hv |]. split; [exact Hr |].
  split; [exact Hn |].
  intros Hhonours name Hname.
  destruct (Forall2_elem_of_r _ _ _ _ Hn Hname) as (it & Hit & Hget).
  destruct (Hhonours it Hit)
    as [(n & pattern & Hn' & Hpat & Hmatch) (arch & Harch & Hsup)].
  split.
  - rewrite Hget in Hn'. injection Hn' as ->.
    apply micro_or_small_wildcards.
    change (filter_values filters "instance-type")
      with [PStr "*.micro"; PStr "*.small"] in Hpat.
    apply elem_of_cons in Hpat as [[= ->] | Hpat]; [now left |].
    apply elem_of_cons in Hpat as [[= ->] | Hpat]; [now right |].
    now apply elem_of_nil in Hpat.
  - change (filter_values filters "processor-info.supported-architecture")
      with [architecture] in Harch.
    apply list_elem_of_singleton in Harch as ->.
    now exists it.
Qed.
End Lookups.

(** C9 as stated fails: asked for no image id, a provider may still answer
    with images, and [get_images] hands them on. *)
Lemma get_images_empty_ids_nonempty_result :
  let out := get_images stubbed (PList [])
               (fresh [inr (images_reply [PDict {["ImageId" := PStr "ami-1"]}])]) in
  requests out.1 = [Request describe_images {["ImageIds" := PList []]}] /\
  out.2 = inr (PList [PDict {["ImageId" := PStr "ami-1"]}]) /\
  out.2 <> inr (PList []).
Proof. repeat split. discriminate. Qed.

Lemma empty_lookups_witness :
  get_images stubbed (PList []) (fresh [inr (images_reply [])]) =
    (World None [] [Request describe_images {["ImageIds" := PList []]}] [] [],
     inr (PList [])) /\
  get_instance_types stubbed (PStr "sparc") (fresh [inr (types_reply [])]) =
    (World None []
       [Request describe_instance_types
          {["Filters" := instance_type_filters (PStr "sparc")]}] [] [],
     inr []).
Proof.
  split.
  - exact (proj1 (empty_lookups stubbed (fresh [inr (images_reply [])]))
             [] (images_reply []) (PList []) eq_refl eq_refl).
  - exact (proj2 (empty_lookups stubbed (fresh [inr (types_reply [])]))
             (PStr "sparc") [] (types_reply []) eq_refl eq_refl).
Defined.

(** C8 as stated fails: the names come from the reply unfiltered, so a
    provider that answers with another size class gets it returned. *)
Lemma get_instance_types_returns_other_size_class :
  let out := get_instance_types stubbed (PStr "arm64")
               (fresh [inr (types_reply [type_record "m5.large"])]) in
  out.2 = inr [PStr "m5.large"] /\ ~ micro_or_small (PStr "m5.large").
Proof.
  split; [reflexivity |].
  rewrite micro_or_small_wildcards. intros [H | H]; discriminate H.
Qed.

(** A reply that honours the filters of [get_instance_types]. *)
Lemma honours_filters_example :
  honours_filters supports_all (instance_type_filters (PStr "arm64"))
    [type_record "t4g.micro"; type_record "t4g.small"].
Proof.
  intros it Hit. split; [| now exists (PStr "arm64"); split; [left |]].
  apply elem_of_cons in Hit as [-> | Hit].
  { exists "t4g.micro", "*.micro". repeat split. left. }
  apply elem_of_cons in Hit as [-> | Hit].
  { exists "t4g.small", "*.small". repeat split. right. left. }
  now apply elem_of_nil in Hit.
Qed.

Lemma get_instance_types_names_witness :
  let w := fresh [inr (types_reply [type_record "t4g.micro"; type_record "t4g.small"])] in
  let out := get_instance_types stubbed (PStr "arm64") w in
  out.2 = inr [PStr "t4g.micro"; PStr "t4g.small"] /\
  micro_or_small (PStr "t4g.micro") /\ micro_or_small (PStr "t4g.small").
Proof.
  intros w out. split; [reflexivity |].
  destruct (get_instance_types_names stubbed supports_all w out.1 (PStr "arm64")
              [PStr "t4g.micro"; PStr "t4g.small"] eq_refl)
    as (_ & _ & p1 & response & instance_types & reply & H1 & Hv & Hr & _ & Hn).
  injection H1 as <- <-. injection Hv as <-. injection Hr as <-.
  specialize (Hn honours_filters_example).
  split.
  - apply Hn. left.
  - apply Hn. right. left.
Defined.

(** * Further properties of the methods *)

(** ** Lookups raise no [ClientError] *)

Lemma getindex_not_ClientError v i code msg :
  getindex v i <> inl (ClientError code msg).
Proof.
  destruct v as [s | | | l | d]; simpl; try discriminate.
  - now destruct (String.get i s).
  - now destruct (l !! i).
Qed.

Lemma py_iter_not_ClientError v code msg : py_iter v <> inl (ClientError code msg).
Proof. now destruct v. Qed.

Lemma described_instance_not_ClientError response code msg :
  described_instance response <> inl (ClientError code msg).
Proof.
  unfold described_instance. intros H.
  destruct (getitem response "Reservations") as [e | reservations] eqn:H1.
  { injection H as ->. now apply getitem_not_ClientError in H1. }
  destruct (getindex reservations 0) as [e | reservation] eqn:H2.
  { injection H as ->. now apply getindex_not_ClientError in H2. }
  destruct (getitem reservation "Instances") as [e | instances] eqn:H3.
  { injection H as ->. now apply getitem_not_ClientError in H3. }
  now apply getindex_not_ClientError in H.
Qed.

Ltac impossible :=
  match goal with
  | H : getitem _ _ = inl (ClientError _ _) |- _ =>
      now apply getitem_not_ClientError in H
  | H : getindex _ _ = inl (ClientError _ _) |- _ =>
      now apply getindex_not_ClientError in H
  | H : described_instance _ = inl (ClientError _ _) |- _ =>
      now apply described_instance_not_ClientError in H
  | H : py_iter _ = inl (ClientError _ _) |- _ =>
      now apply py_iter_not_ClientError in H
  | H : comprehension _ _ = inl (ClientError _ _) |- _ =>
      now apply comprehension_not_ClientError in H
  end.

(** Running a method symbolically: the statements are unfolded, the texts of
    the messages and of the printed lines are not. *)
Ltac run_statements :=
  cbv beta iota zeta delta
    [invoke prod_map raised id
     create display terminate start stop get_images get_instance_types
     try_except_ClientError bind call lift ret raise log print get_instance
     set_instance self_instance_getitem noted
     instance provider requests stdout records fst snd].

Ltac forks :=
  repeat (run_statements;
          match goal with
          | |- context [match ?x with _ => _ end] =>
              lazymatch x with
              | context [match _ with _ => _ end] => fail
              | _ => destruct x eqn:?
              end
          end).

(** ** What every call does to the log, the requests and the output *)

Section Policy.
Context {P : Type}.
Variable ec2_client : P -> request -> P * result pyval.
Variable py_repr : pyval -> string.

(** X1. The log of any call: a [ClientError] that comes out has been logged
    once, at error level; any other exception has not been logged at all; a
    call that returns has logged nothing, or one informational record when no
    instance was tracked. *)
Theorem logging_policy (c : invocation) (w : world P) :
  let out := invoke ec2_client py_repr c w in
  match out.2 with
  | Some (ClientError _ _) =>
      exists r, records out.1 = records w ++ [r] /\ severity r = ERROR
  | Some _ => records out.1 = records w
  | None =>
      records out.1 = records w \/
      (instance w = None /\
       exists line, records out.1 = records w ++ [LogRecord logger INFO line])
  end.
Proof.
  destruct w as [tracked p sent out logged].
  destruct c; forks; try impossible;
    first [ reflexivity
          | left; reflexivity
          | right; split; [reflexivity | eexists; reflexivity]
          | eexists; split; reflexivity ].
Qed.

(** X2. The requests of any call: it only adds to what was sent, and what it
    adds is a beginning of the method's own sequence of operations, so that
    no method sends an operation of another, nor its own out of order or
    twice. *)
Theorem request_discipline (c : invocation) (w : world P) :
  exists sent,
    requests (invoke ec2_client py_repr c w).1 = requests w ++ sent /\
    op <$> sent `prefix_of` allowed_operations c.
Proof.
  destruct w as [tracked p sent out logged].
  destruct c; forks; rewrite <- ?app_assoc; eexists;
    (split; [first [reflexivity | symmetry; apply app_nil_r] |]);
    eexists; reflexivity.
Qed.

(** X3. Only [display] prints: after any other call the output is what it
    was. *)
Theorem only_display_prints (c : invocation) (w : world P) :
  stdout (invoke ec2_client py_repr c w).1 = stdout w \/
  exists indent, c = Display indent.
Proof.
  destruct w as [tracked p sent out logged].
  destruct c; try (right; eexists; reflexivity); left; forks; reflexivity.
Qed.

(** X4. However [display] ends, it has added at most seven lines to the
    output, and each of them starts with the indent. *)
Theorem display_lines_indented (indent : Z) (w : world P) :
  exists lines,
    stdout (display ec2_client py_repr indent w).1 = stdout w ++ lines /\
    (List.length lines <= 7)%nat /\
    forall line, line ∈ lines -> exists rest, line = str_mul tab indent +:+ rest.
Proof.
  destruct w as [tracked p sent out logged].
  forks; rewrite <- ?app_assoc; eexists;
    (split; [first [reflexivity | symmetry; apply app_nil_r] |]);
    (split; [simpl; lia |]);
    intros line Hin;
    repeat (apply elem_of_cons in Hin as [-> | Hin]; [eexists; reflexivity |]);
    now apply elem_of_nil in Hin.
Qed.

(** X5. A [ClientError] that comes out of a call is the one the client raised
    at the last request of that call; nothing was sent after it. The methods
    raise no [ClientError] of their own and turn none into another. *)
Theorem client_errors_come_from_the_client (c : invocation) (w : world P)
    code msg :
  (invoke ec2_client py_repr c w).2 = Some (ClientError code msg) ->
  exists sent req p,
    requests (invoke ec2_client py_repr c w).1 = requests w ++ sent ++ [req] /\
    ec2_client p req
      = (provider (invoke ec2_client py_repr c w).1, inl (ClientError code msg)).
Proof.
  destruct w as [tracked p sent out logged].
  destruct c; forks; intros [=]; subst; try impossible; try congruence;
    match goal with
    | H : ec2_client ?p0 ?req = (_, inl (ClientError _ _)) |- _ =>
        first [ exists [], req, p0; split; [reflexivity | exact H]
              | eexists [_], req, p0; split;
                [rewrite <- ?app_assoc; reflexivity | exact H] ]
    end.
Qed.
End Policy.

Lemma client_errors_come_from_the_client_witness :
  let w := tracking (instance_record "i-1")
             [inr (PDict ∅); inl (ClientError "InternalError" "wait failed")] in
  (invoke stubbed opaque_repr Terminate w).2
    = Some (ClientError "InternalError" "wait failed") /\
  exists sent req p,
    requests (invoke stubbed opaque_repr Terminate w).1
      = requests w ++ sent ++ [req] /\
    stubbed p req
      = (provider (invoke stubbed opaque_repr Terminate w).1,
         inl (ClientError "InternalError" "wait failed")).
Proof.
  intros w. split; [reflexivity |].
  exact (client_errors_come_from_the_client stubbed opaque_repr Terminate w
           "InternalError" "wait failed" eq_refl).
Defined.

(** ** [terminate], when it goes through *)

Section TerminateMore.
Context {P : Type}.
Variable ec2_client : P -> request -> P * result pyval.
Variable py_repr : pyval -> string.

(** X6. With a tracked instance, when the terminate request and the wait for
    [instance_terminated] both go through, [terminate] returns, has sent
    exactly these two requests for the tracked id, has logged and printed
    nothing, and tracks nothing any more. *)
Theorem terminate_succeeds (w : world P) inst id p1 response p2 done :
  instance w = Some inst ->
  getitem inst "InstanceId" = inr id ->
  ec2_client (provider w) (Request terminate_instances (instance_ids id))
    = (p1, inr response) ->
  ec2_client p1 (Request (waiter_wait "instance_terminated") (instance_ids id))
    = (p2, inr done) ->
  terminate ec2_client py_repr w =
    (World None p2
       (requests w ++
          [Request terminate_instances (instance_ids id);
           Request (waiter_wait "instance_terminated") (instance_ids id)])
       (stdout w) (records w),
     inr tt).
Proof.
  intros Hi Hid H1 H2. destruct w as [tracked p sent out logged].
  simpl in Hi, H1. subst tracked. unfold instance_ids in *.
  run_statements. rewrite Hid. run_statements. rewrite H1. run_statements.
  rewrite H2. run_statements. now rewrite <- app_assoc.
Qed.

(** X7. After a [terminate] that returned, another [terminate] sends nothing
    and returns: it only logs that there is no instance. *)
Theorem terminate_twice (w w1 : world P) :
  terminate ec2_client py_repr w = (w1, inr tt) ->
  terminate ec2_client py_repr w1 =
    (noted w1 "No instance to terminate.", inr tt).
Proof.
  intros H. pose proof (terminate_outcome ec2_client py_repr w) as Hout.
  rewrite H in Hout. simpl in Hout.
  destruct w1 as [tracked p sent out logged]. simpl in Hout. subst tracked.
  reflexivity.
Qed.
End TerminateMore.

Lemma terminate_succeeds_witness :
  terminate stubbed opaque_repr
    (tracking (instance_record "i-1") [inr (PDict ∅); inr (PDict ∅)]) =
    (World None []
       [Request terminate_instances (instance_ids (PStr "i-1"));
        Request (waiter_wait "instance_terminated") (instance_ids (PStr "i-1"))]
       [] [],
     inr tt).
Proof.
  exact (terminate_succeeds stubbed opaque_repr
           (tracking (instance_record "i-1") [inr (PDict ∅); inr (PDict ∅)])
           (instance_record "i-1") (PStr "i-1") _ (PDict ∅) _ (PDict ∅)
           eq_refl eq_refl eq_refl eq_refl).
Defined.

Lemma terminate_twice_witness :
  let w := tracking (instance_record "i-1") [inr (PDict ∅); inr (PDict ∅)] in
  let w1 := (terminate stubbed opaque_repr w).1 in
  terminate stubbed opaque_repr w1 =
    (World None []
       [Request terminate_instances (instance_ids (PStr "i-1"));
        Request (waiter_wait "instance_terminated") (instance_ids (PStr "i-1"))]
       [] [LogRecord logger INFO "No instance to terminate."],
     inr tt).
Proof.
  intros w w1.
  exact (terminate_twice stubbed opaque_repr w w1 eq_refl).
Defined.

(** ** [start] and [stop], when the provider refuses *)

Section StartStopFailures.
Context {P : Type}.
Variable ec2_client : P -> request -> P * result pyval.
Variable py_repr : pyval -> string.

Lemma start_or_stop_request_fails o target verb (w : world P) inst id p1 code msg :
  instance w = Some inst ->
  getitem inst "InstanceId" = inr id ->
  ec2_client (provider w) (Request o (instance_ids id))
    = (p1, inl (ClientError code msg)) ->
  start_or_stop ec2_client py_repr o target verb w =
    (World (instance w) p1 (requests w ++ [Request o (instance_ids id)])
       (stdout w)
       (records w ++
          [LogRecord logger ERROR
             (percent_format
                ("Couldn't " +:+ verb +:+ " instance %s. Here's why: %s: %s")
                [py_str py_repr id; code; msg])]),
     inl (ClientError code msg)).
Proof.
  intros Hi Hid H1. open_world w. statements. simpl.
  rewrite Hid, H1. simpl. now rewrite Hid.
Qed.

Lemma start_or_stop_wait_fails o target verb (w : world P) inst id p1 response
    p2 code msg :
  instance w = Some inst ->
  getitem inst "InstanceId" = inr id ->
  ec2_client (provider w) (Request o (instance_ids id)) = (p1, inr response) ->
  ec2_client p1 (Request (waiter_wait target) (instance_ids id))
    = (p2, inl (ClientError code msg)) ->
  start_or_stop ec2_client py_repr o target verb w =
    (World (instance w) p2
       (requests w ++ [Request o (instance_ids id);
                       Request (waiter_wait target) (instance_ids id)])
       (stdout w)
       (records w ++
          [LogRecord logger ERROR
             (percent_format
                ("Couldn't " +:+ verb +:+ " instance %s. Here's why: %s: %s")
                [py_str py_repr id; code; msg])]),
     inl (ClientError code msg)).
Proof.
  intros Hi Hid H1 H2. open_world w. statements. simpl.
  rewrite Hid, H1. simpl. rewrite Hid, H2. simpl. rewrite Hid.
  now rewrite <- app_assoc.
Qed.

(** X8. With a tracked instance, when the start (resp. stop) request fails
    with a [ClientError], [start] (resp. [stop]) never calls the waiter: it
    logs the error with the instance id and raises it again. When the request
    goes through and the waiter fails with a [ClientError], the error is
    logged and raised again in the same way and the response of the request is
    lost. The tracked reference stays in both cases. *)
Theorem start_stop_failures (w : world P) inst id code msg :
  instance w = Some inst ->
  getitem inst "InstanceId" = inr id ->
  let start_record :=
    LogRecord logger ERROR
      (percent_format "Couldn't start instance %s. Here's why: %s: %s"
         [py_str py_repr id; code; msg]) in
  let stop_record :=
    LogRecord logger ERROR
      (percent_format "Couldn't stop instance %s. Here's why: %s: %s"
         [py_str py_repr id; code; msg]) in
  (forall p1,
      ec2_client (provider w) (Request start_instances (instance_ids id))
        = (p1, inl (ClientError code msg)) ->
      start ec2_client py_repr w =
        (World (Some inst) p1
           (requests w ++ [Request start_instances (instance_ids id)])
           (stdout w) (records w ++ [start_record]),
         inl (ClientError code msg))) /\
  (forall p1 response p2,
      ec2_client (provider w) (Request start_instances (instance_ids id))
        = (p1, inr response) ->
      ec2_client p1 (Request (waiter_wait "instance_running") (instance_ids id))
        = (p2, inl (ClientError code msg)) ->
      start ec2_client py_repr w =
        (World (Some inst) p2
           (requests w ++
              [Request start_instances (instance_ids id);
               Request (waiter_wait "instance_running") (instance_ids id)])
           (stdout w) (records w ++ [start_record]),
         inl (ClientError code msg))) /\
  (forall p1,
      ec2_client (provider w) (Request stop_instances (instance_ids id))
        = (p1, inl (ClientError code msg)) ->
      stop ec2_client py_repr w =
        (World (Some inst) p1
           (requests w ++ [Request stop_instances (instance_ids id)])
           (stdout w) (records w ++ [stop_record]),
         inl (ClientError code msg))) /\
  (forall p1 response p2,
      ec2_client (provider w) (Request stop_instances (instance_ids id))
        = (p1, inr response) ->
      ec2_client p1 (Request (waiter_wait "instance_stopped") (instance_ids id))
        = (p2, inl (ClientError code msg)) ->
      stop ec2_client py_repr w =
        (World (Some inst) p2
           (requests w ++
              [Request stop_instances (instance_ids id);
               Request (waiter_wait "instance_stopped") (instance_ids id)])
           (stdout w) (records w ++ [stop_record]),
         inl (ClientError code msg))).
Proof.
  intros Hi Hid start_record stop_record. subst start_record stop_record.
  rewrite <- Hi. repeat split.
  - intros p1 H1. rewrite start_shape.
    now rewrite (start_or_stop_request_fails _ _ _ w inst id p1 code msg Hi Hid H1).
  - intros p1 response p2 H1 H2. rewrite start_shape.
    now rewrite (start_or_stop_wait_fails _ _ _ w inst id p1 response p2 code msg
                   Hi Hid H1 H2).
  - intros p1 H1. rewrite stop_shape.
    now rewrite (start_or_stop_request_fails _ _ _ w inst id p1 code msg Hi Hid H1).
  - intros p1 response p2 H1 H2. rewrite stop_shape.
    now rewrite (start_or_stop_wait_fails _ _ _ w inst id p1 response p2 code msg
                   Hi Hid H1 H2).
Qed.
End StartStopFailures.

Lemma start_stop_failures_witness :
  stop stubbed opaque_repr
    (tracking (instance_record "i-1")
       [inl (ClientError "IncorrectInstanceState" "not running")]) =
    (World (Some (instance_record "i-1")) []
       [Request stop_instances (instance_ids (PStr "i-1"))] []
       [LogRecord logger ERROR
          ("Couldn't stop instance i-1. Here's why: "
           +:+ "IncorrectInstanceState: not running")],
     inl (ClientError "IncorrectInstanceState" "not running")).
Proof.
  exact (proj1 (proj2 (proj2
           (start_stop_failures stubbed opaque_repr
              (tracking (instance_record "i-1")
                 [inl (ClientError "IncorrectInstanceState" "not running")])
              (instance_record "i-1") (PStr "i-1")
              "IncorrectInstanceState" "not running" eq_refl eq_refl)))
           _ eq_refl).
Defined.

(** ** [display], when the provider refuses *)

Section DisplayMore.
Context {P : Type}.
Variable ec2_client : P -> request -> P * result pyval.
Variable py_repr : pyval -> string.

(** X9. With a tracked instance, when the describe request fails with a
    [ClientError], [display] prints nothing, logs the error and raises it
    again; the tracked reference stays. *)
Theorem display_request_fails (w : world P) (indent : Z) inst id p1 code msg :
  instance w = Some inst ->
  getitem inst "InstanceId" = inr id ->
  ec2_client (provider w) (Request describe_instances (instance_ids id))
    = (p1, inl (ClientError code msg)) ->
  display ec2_client py_repr indent w =
    (World (Some inst) p1
       (requests w ++ [Request describe_instances (instance_ids id)])
       (stdout w)
       (records w ++
          [LogRecord logger ERROR
             (percent_format "Couldn't display your instance. Here's why: %s: %s"
                [code; msg])]),
     inl (ClientError code msg)).
Proof.
  intros Hi Hid H1. destruct w as [tracked p sent out logged].
  simpl in Hi, H1. subst tracked. unfold instance_ids in *.
  run_statements. rewrite Hid. run_statements. now rewrite H1.
Qed.
End DisplayMore.

Lemma display_request_fails_witness :
  display stubbed opaque_repr 1
    (tracking (instance_record "i-1")
       [inl (ClientError "InvalidInstanceID.NotFound" "no such instance")]) =
    (World (Some (instance_record "i-1")) []
       [Request describe_instances (instance_ids (PStr "i-1"))] []
       [LogRecord logger ERROR
          ("Couldn't display your instance. Here's why: "
           +:+ "InvalidInstanceID.NotFound: no such instance")],
     inl (ClientError "InvalidInstanceID.NotFound" "no such instance")).
Proof.
  exact (display_request_fails stubbed opaque_repr
           (tracking (instance_record "i-1")
              [inl (ClientError "InvalidInstanceID.NotFound" "no such instance")])
           1 (instance_record "i-1") (PStr "i-1") _ _ _
           eq_refl eq_refl eq_refl).
Defined.

(** ** A tracked value without an identifier *)

Section NoIdentifier.
Context {P : Type}.
Variable ec2_client : P -> request -> P * result pyval.
Variable py_repr : pyval -> string.

(** X11. When the tracked value has no [InstanceId] to give (a dict without
    the key raises [KeyError], a value that is no dict raises [TypeError]),
    [start], [stop], [display] and [terminate] raise that lookup error before
    any request: nothing is sent, logged or printed and the tracked value
    stays. *)
Theorem tracked_without_identifier (w : world P) (indent : Z) v e :
  instance w = Some v ->
  getitem v "InstanceId" = inl e ->
  start ec2_client py_repr w = (w, inl e) /\
  stop ec2_client py_repr w = (w, inl e) /\
  display ec2_client py_repr indent w = (w, inl e) /\
  terminate ec2_client py_repr w = (w, inl e).
Proof.
  intros Hi He. destruct w as [tracked p sent out logged].
  simpl in Hi. subst tracked.
  repeat split; run_statements; rewrite He; run_statements;
    destruct e; try reflexivity; now apply getitem_not_ClientError in He.
Qed.
End NoIdentifier.

Lemma tracked_without_identifier_witness :
  let w := tracking (PDict {["ImageId" := PStr "ami-1"]}) [inr (PDict ∅)] in
  start stubbed opaque_repr w = (w, inl (KeyError (PStr "InstanceId"))) /\
  terminate stubbed opaque_repr w = (w, inl (KeyError (PStr "InstanceId"))).
Proof.
  intros w.
  destruct (tracked_without_identifier stubbed opaque_repr w 1
              (PDict {["ImageId" := PStr "ami-1"]}) (KeyError (PStr "InstanceId"))
              eq_refl eq_refl) as (Hstart & _ & _ & Hterminate).
  split; [exact Hstart | exact Hterminate].
Defined.

(** ** [create] on a reply it cannot read, and what follows a [create] *)

Section CreateMore.
Context {P : Type}.
Variable ec2_client : P -> request -> P * result pyval.
Variable py_repr : pyval -> string.

(** X12. When the provider answers [run_instances] with a reply [create]
    cannot read, the lookup error comes out unlogged and the waiter is not
    called. If the reply has no [Instances] entry or no first instance, the
    tracked reference is what it was; if the first instance has no
    [InstanceId], that record is the tracked reference all the same. *)
Theorem create_unreadable_reply image instance_type key_pair security_groups
    (w : world P) p1 response e :
  let kw := run_instances_kwargs image instance_type key_pair security_groups in
  ec2_client (provider w) (Request run_instances kw) = (p1, inr response) ->
  (getitem response "Instances" = inl e ->
   create ec2_client py_repr image instance_type key_pair security_groups w =
     (World (instance w) p1 (requests w ++ [Request run_instances kw])
        (stdout w) (records w),
      inl e)) /\
  (forall instances,
      getitem response "Instances" = inr instances ->
      getindex instances 0 = inl e ->
      create ec2_client py_repr image instance_type key_pair security_groups w =
        (World (instance w) p1 (requests w ++ [Request run_instances kw])
           (stdout w) (records w),
         inl e)) /\
  (forall instances inst,
      getitem response "Instances" = inr instances ->
      getindex instances 0 = inr inst ->
      getitem inst "InstanceId" = inl e ->
      create ec2_client py_repr image instance_type key_pair security_groups w =
        (World (Some inst) p1 (requests w ++ [Request run_instances kw])
           (stdout w) (records w),
         inl e)).
Proof.
  intros kw H1. subst kw. destruct w as [tracked p sent out logged].
  simpl in H1. unfold run_instances_kwargs in *.
  repeat split.
  - intros He. run_statements. rewrite H1. run_statements. rewrite He.
    destruct e; try reflexivity. now apply getitem_not_ClientError in He.
  - intros instances Hr He. run_statements. rewrite H1. run_statements.
    rewrite Hr. run_statements. rewrite He.
    destruct e; try reflexivity. now apply getindex_not_ClientError in He.
  - intros instances inst Hr Hi He. run_statements. rewrite H1. run_statements.
    rewrite Hr. run_statements. rewrite Hi. run_statements. rewrite He.
    destruct e; try reflexivity. now apply getitem_not_ClientError in He.
Qed.

(** X13. The identifier a [create] returns is the one the later calls use:
    after it, [start], [stop], [terminate] and [display] each begin with their
    request for that identifier, whatever the provider does next. *)
Theorem created_identifier_is_used image instance_type key_pair security_groups
    (w w1 : world P) id (indent : Z) :
  create ec2_client py_repr image instance_type key_pair security_groups w
    = (w1, inr id) ->
  (exists rest,
      requests (start ec2_client py_repr w1).1 =
        requests w1 ++ Request start_instances (instance_ids id) :: rest) /\
  (exists rest,
      requests (stop ec2_client py_repr w1).1 =
        requests w1 ++ Request stop_instances (instance_ids id) :: rest) /\
  (exists rest,
      requests (terminate ec2_client py_repr w1).1 =
        requests w1 ++ Request terminate_instances (instance_ids id) :: rest) /\
  (exists rest,
      requests (display ec2_client py_repr indent w1).1 =
        requests w1 ++ Request describe_instances (instance_ids id) :: rest).
Proof.
  intros H. destruct w as [tracked p sent out logged].
  apply create_returns in H
    as (p1 & response & instances & inst & p2 & done & _ & _ & _ & Hid & _ & ->).
  unfold instance_ids.
  repeat split;
    repeat (run_statements; rewrite ?Hid;
            match goal with
            | |- context [match ?x with _ => _ end] =>
                lazymatch x with
                | context [match _ with _ => _ end] => fail
                | _ => destruct x eqn:?
                end
            end);
    eexists; rewrite <- ?app_assoc; reflexivity.
Qed.
End CreateMore.

Lemma create_unreadable_reply_witness :
  let w := tracking (instance_record "i-0") [inr (PDict {["Instances" := PList []]})] in
  create stubbed opaque_repr (PStr "ami-1") (PStr "t2.micro") (PStr "key") None w =
    (World (Some (instance_record "i-0")) []
       [Request run_instances
          (run_instances_kwargs (PStr "ami-1") (PStr "t2.micro") (PStr "key") None)]
       [] [],
     inl IndexError).
Proof.
  intros w.
  exact (proj1 (proj2
           (create_unreadable_reply stubbed opaque_repr (PStr "ami-1")
              (PStr "t2.micro") (PStr "key") None w []
              (PDict {["Instances" := PList []]}) IndexError eq_refl))
           (PList []) eq_refl eq_refl).
Defined.

Lemma created_identifier_is_used_witness :
  let w := fresh [inr (run_reply "i-1"); inr (PDict ∅); inr (PDict ∅); inr (PDict ∅)] in
  let w1 := (create stubbed opaque_repr (PStr "ami-1") (PStr "t2.micro")
               (PStr "key") None w).1 in
  exists rest,
    requests (stop stubbed opaque_repr w1).1 =
      requests w1 ++ Request stop_instances (instance_ids (PStr "i-1")) :: rest.
Proof.
  intros w w1.
  exact (proj1 (proj2
           (created_identifier_is_used stubbed opaque_repr (PStr "ami-1")
              (PStr "t2.micro") (PStr "key") None w w1 (PStr "i-1") 1 eq_refl))).
Defined.

(** ** [get_images] and [get_instance_types], all outcomes *)

Section LookupsMore.
Context {P : Type}.
Variable ec2_client : P -> request -> P * result pyval.

(** X14. [get_images] sends one request that holds the ids it was given and
    nothing else, whatever they are. When the provider answers, the result is
    the [Images] entry of the answer, and an answer without that entry makes
    [KeyError] come out unlogged. When the provider raises a [ClientError],
    it is logged and raised again. *)
Theorem get_images_outcomes (w : world P) image_ids p1 :
  let sent := requests w ++ [Request describe_images {["ImageIds" := image_ids]}] in
  (forall response images,
      ec2_client (provider w) (Request describe_images {["ImageIds" := image_ids]})
        = (p1, inr response) ->
      getitem response "Images" = inr images ->
      get_images ec2_client image_ids w =
        (World (instance w) p1 sent (stdout w) (records w), inr images)) /\
  (forall d,
      ec2_client (provider w) (Request describe_images {["ImageIds" := image_ids]})
        = (p1, inr (PDict d)) ->
      d !! "Images" = None ->
      get_images ec2_client image_ids w =
        (World (instance w) p1 sent (stdout w) (records w),
         inl (KeyError (PStr "Images")))) /\
  (forall code msg,
      ec2_client (provider w) (Request describe_images {["ImageIds" := image_ids]})
        = (p1, inl (ClientError code msg)) ->
      get_images ec2_client image_ids w =
        (World (instance w) p1 sent (stdout w)
           (records w ++
              [LogRecord logger ERROR
                 (percent_format "Couldn't get images. Here's why: %s: %s"
                    [code; msg])]),
         inl (ClientError code msg))).
Proof.
  intros sent. subst sent. repeat split.
  - intros response images H1 Hi.
    rewrite (get_images_forwards ec2_client w _ p1 response H1). now rewrite Hi.
  - intros d H1 Hd.
    rewrite (get_images_forwards ec2_client w _ p1 (PDict d) H1).
    simpl. now rewrite Hd.
  - intros code msg H1. destruct w as [tracked p sent out logged].
    simpl in H1. run_statements. now rewrite H1.
Qed.

Lemma comprehension_first_failure {A B} (f : A -> result B) good bad rest e :
  Forall (fun x => exists y, f x = inr y) good ->
  f bad = inl e ->
  comprehension f (good ++ bad :: rest) = inl e.
Proof.
  intros Hgood Hbad. induction Hgood as [| x good [y Hx] _ IH]; simpl.
  - now rewrite Hbad.
  - now rewrite Hx, IH.
Qed.

(** X15. [get_instance_types] gives all the names or none: when a record of
    the reply has no [InstanceType] to give, the lookup error of the first
    such record comes out, unlogged, and the names read before it are lost.
    When the provider raises a [ClientError], it is logged and raised
    again. *)
Theorem get_instance_types_all_or_nothing (w : world P) architecture p1 :
  let sent :=
    requests w ++
      [Request describe_instance_types
         {["Filters" := instance_type_filters architecture]}] in
  (forall response good bad rest e,
      ec2_client (provider w)
        (Request describe_instance_types
           {["Filters" := instance_type_filters architecture]})
        = (p1, inr response) ->
      getitem response "InstanceTypes" = inr (PList (good ++ bad :: rest)) ->
      Forall (fun it => exists name, getitem it "InstanceType" = inr name) good ->
      getitem bad "InstanceType" = inl e ->
      get_instance_types ec2_client architecture w =
        (World (instance w) p1 sent (stdout w) (records w), inl e)) /\
  (forall code msg,
      ec2_client (provider w)
        (Request describe_instance_types
           {["Filters" := instance_type_filters architecture]})
        = (p1, inl (ClientError code msg)) ->
      get_instance_types ec2_client architecture w =
        (World (instance w) p1 sent (stdout w)
           (records w ++
              [LogRecord logger ERROR
                 (percent_format "Couldn't get instance types. Here's why: %s: %s"
                    [code; msg])]),
         inl (ClientError code msg))).
Proof.
  intros sent. subst sent. split.
  - intros response good bad rest e H1 Hits Hgood Hbad.
    rewrite (get_instance_types_forwards ec2_client w _ p1 response _ H1 Hits).
    now rewrite (comprehension_first_failure _ good bad rest e Hgood Hbad).
  - intros code msg H1. destruct w as [tracked p sent out logged].
    simpl in H1. run_statements. now rewrite H1.
Qed.
End LookupsMore.

Lemma get_images_outcomes_witness :
  get_images stubbed (PList [PStr "ami-1"; PStr "ami-2"])
    (fresh [inr (images_reply [PDict {["ImageId" := PStr "ami-1"]}])]) =
    (World None []
       [Request describe_images
          {["ImageIds" := PList [PStr "ami-1"; PStr "ami-2"]]}] [] [],
     inr (PList [PDict {["ImageId" := PStr "ami-1"]}])) /\
  get_images stubbed (PStr "ami-1") (fresh [inr (PDict ∅)]) =
    (World None [] [Request describe_images {["ImageIds" := PStr "ami-1"]}] [] [],
     inl (KeyError (PStr "Images"))).
Proof.
  split.
  - exact (proj1 (get_images_outcomes stubbed
                    (fresh [inr (images_reply [PDict {["ImageId" := PStr "ami-1"]}])])
                    (PList [PStr "ami-1"; PStr "ami-2"]) [])
             _ _ eq_refl eq_refl).
  - exact (proj1 (proj2 (get_images_outcomes stubbed (fresh [inr (PDict ∅)])
                           (PStr "ami-1") []))
             ∅ eq_refl eq_refl).
Defined.

Lemma get_instance_types_all_or_nothing_witness :
  get_instance_types stubbed (PStr "arm64")
    (fresh [inr (types_reply [type_record "t4g.micro"; PDict ∅;
                              type_record "t4g.small"])]) =
    (World None []
       [Request describe_instance_types
          {["Filters" := instance_type_filters (PStr "arm64")]}] [] [],
     inl (KeyError (PStr "InstanceType"))).
Proof.
  refine (proj1 (get_instance_types_all_or_nothing stubbed
                   (fresh [inr (types_reply [type_record "t4g.micro"; PDict ∅;
                                             type_record "t4g.small"])])
                   (PStr "arm64") [])
            _ [type_record "t4g.micro"] (PDict ∅) [type_record "t4g.small"]
            (KeyError (PStr "InstanceType")) eq_refl eq_refl _ eq_refl).
  constructor; [now exists (PStr "t4g.micro") | constructor].
Defined.
